(** * Military Weather Monitoring System: the decision logic of [streamlit_app.py]

    A shallow embedding of the Python module: the weather-code table, the
    alert classifier, the image-URL builder, the weather fetch with its
    card, and the geocoding suggestion search.  Python values that come out
    of [json.loads] are modelled by the type [json]; exceptions by the sum
    [result]; calls into Streamlit and [requests] by a trace of events. *)

From Stdlib Require Import ZArith NArith List String Ascii Bool Lia.
From Stdlib Require Import Floats.SpecFloat.
From stdpp Require Import base option gmap.

Set Warnings "-register-all".
Local Open Scope Z_scope.

(** ** Python strings

    A Python [str] is a sequence of code points, so [len] is [length] and
    a character outside ASCII is one element. *)

Abbreviation str := (list N).

(** An ASCII literal of the source, character by character. *)
Definition lit (s : string) : str := List.map N_of_ascii (list_ascii_of_string s).

(** [sep.join(parts)] *)
Fixpoint join (sep : str) (parts : list str) : str :=
  match parts with
  | [] => []
  | [p] => p
  | p :: rest => p ++ sep ++ join sep rest
  end.

(** ** Python numbers

    A JSON number is parsed to an [int] or to a [float], an IEEE 754
    binary64 value. *)

Inductive pynum :=
| PyInt (z : Z)
| PyFloat (f : spec_float).

(** The double nearest to an integer: what CPython compares a float with
    when the other operand is a small [int]. *)
Definition binary64 (k : Z) : spec_float := binary_normalize 53 1024 k 0 false.

(** [x < k], [x > k], [x <= k], [x >= k] and [x == k] for an integer
    literal [k]; every comparison with NaN is false. *)
Definition num_lt (x : pynum) (k : Z) : bool :=
  match x with
  | PyInt z => z <? k
  | PyFloat f => SFltb f (binary64 k)
  end.

Definition num_gt (x : pynum) (k : Z) : bool :=
  match x with
  | PyInt z => k <? z
  | PyFloat f => SFltb (binary64 k) f
  end.

Definition num_le (x : pynum) (k : Z) : bool :=
  match x with
  | PyInt z => z <=? k
  | PyFloat f => SFleb f (binary64 k)
  end.

Definition num_ge (x : pynum) (k : Z) : bool :=
  match x with
  | PyInt z => k <=? z
  | PyFloat f => SFleb (binary64 k) f
  end.

Definition num_eq (x : pynum) (k : Z) : bool :=
  match x with
  | PyInt z => z =? k
  | PyFloat f => SFeqb f (binary64 k)
  end.

(** ** Values decoded from JSON *)

Inductive json :=
| JNull
| JBool (b : bool)
| JNum (n : pynum)
| JStr (s : str)
| JArr (items : list json)
| JObj (fields : gmap str json).

Definition JInt (z : Z) : json := JNum (PyInt z).
Definition JFloat (f : spec_float) : json := JNum (PyFloat f).

(** Truth value of an object in an [if]. *)
Definition truthy (v : json) : bool :=
  match v with
  | JNull => false
  | JBool b => b
  | JNum (PyInt z) => negb (z =? 0)
  | JNum (PyFloat (S754_zero _)) => false
  | JNum (PyFloat _) => true
  | JStr s => negb (Nat.eqb (length s) 0)
  | JArr items => negb (Nat.eqb (length items) 0)
  | JObj fields => negb (Nat.eqb (size fields) 0)
  end.

(** The number a value stands for in arithmetic; [bool] is a subclass of
    [int]. *)
Definition as_num (v : json) : option pynum :=
  match v with
  | JNum n => Some n
  | JBool b => Some (PyInt (Z.b2z b))
  | _ => None
  end.

(** ** Exceptions *)

Inductive exn_class :=
| Timeout | ConnectTimeout | ReadTimeout
| ConnectionError | HTTPError | RequestException
| RequestsJSONDecodeError
| JSONDecodeError | UnicodeEncodeError | ValueError
| KeyError | TypeError | AttributeError
| OtherException.

Record exn := Exn { exn_class_of : exn_class; exn_args : str }.

(** [isinstance(e, requests.exceptions.Timeout)] *)
Definition is_Timeout (e : exn) : bool :=
  match exn_class_of e with
  | Timeout | ConnectTimeout | ReadTimeout => true
  | _ => false
  end.

(** [isinstance(e, requests.exceptions.RequestException)] *)
Definition is_RequestException (e : exn) : bool :=
  match exn_class_of e with
  | Timeout | ConnectTimeout | ReadTimeout
  | ConnectionError | HTTPError | RequestException
  | RequestsJSONDecodeError => true
  | _ => false
  end.

(** [isinstance(e, ValueError)]; the decode error of recent [requests]
    derives from both [RequestException] and [ValueError]. *)
Definition is_ValueError (e : exn) : bool :=
  match exn_class_of e with
  | RequestsJSONDecodeError
  | JSONDecodeError | UnicodeEncodeError | ValueError => true
  | _ => false
  end.

Inductive result (A : Type) :=
| Ok (a : A)
| Raise (e : exn).
Arguments Ok {A} a.
Arguments Raise {A} e.

#[export] Instance result_ret : MRet result := fun A a => Ok a.
#[export] Instance result_bind : MBind result := fun A B f r =>
  match r with
  | Ok a => f a
  | Raise e => Raise e
  end.

(** Comparison of a value with an integer literal: ordering a string, a
    list, a dict or [None] against an [int] raises [TypeError]. *)
Definition py_lt (v : json) (k : Z) : result bool :=
  match as_num v with
  | Some n => Ok (num_lt n k)
  | None => Raise (Exn TypeError (lit "'<' not supported"))
  end.

Definition py_gt (v : json) (k : Z) : result bool :=
  match as_num v with
  | Some n => Ok (num_gt n k)
  | None => Raise (Exn TypeError (lit "'>' not supported"))
  end.

(** [a or b]: [b] is evaluated only when [a] is false. *)
Definition or_else (a b : result bool) : result bool :=
  c ← a; if c : bool then Ok true else b.
Infix "|||" := or_else (at level 50, left associativity).

(** ** The alert classifier *)

Definition red_circle : N := 0x1F534%N.
Definition yellow_circle : N := 0x1F7E1%N.
Definition green_circle : N := 0x1F7E2%N.

Definition critical_status : str * str := (red_circle :: lit " Critical", lit "red").
Definition warning_status : str * str := (yellow_circle :: lit " Warning", lit "yellow").
Definition normal_status : str * str := (green_circle :: lit " Normal", lit "green").

Definition get_alert_status (temp wind_speed : json) : result (str * str) :=
  c ← py_lt temp (-10) ||| py_gt temp 40 ||| py_gt wind_speed 20;
  if c : bool then Ok critical_status else
  c ← py_lt temp 0 ||| py_gt temp 35 ||| py_gt wind_speed 15;
  if c : bool then Ok warning_status else
  Ok normal_status.

Definition extreme_cold_message := lit "Extreme cold conditions - Exercise caution".
Definition extreme_heat_message := lit "Extreme heat conditions - Limit exposure".
Definition high_wind_message := lit "High wind speeds - Operations may be affected".
Definition cold_message := lit "Cold conditions - Take necessary precautions".
Definition hot_message := lit "Hot conditions - Stay hydrated".
Definition moderate_wind_message := lit "Moderate wind speeds - Monitor conditions".
Definition normal_message := lit "Normal operating conditions".

Definition get_alert_message (temp wind_speed : json) : result str :=
  c ← py_lt temp (-10);
  if c : bool then Ok extreme_cold_message else
  c ← py_gt temp 40;
  if c : bool then Ok extreme_heat_message else
  c ← py_gt wind_speed 20;
  if c : bool then Ok high_wind_message else
  c ← py_lt temp 0;
  if c : bool then Ok cold_message else
  c ← py_gt temp 35;
  if c : bool then Ok hot_message else
  c ← py_gt wind_speed 15;
  if c : bool then Ok moderate_wind_message else
  Ok normal_message.

(** The decision table of the specification, rule by rule. *)

Inductive AlertTier := Normal | Warning | Critical.

Inductive rule :=
| ExtremeCold | ExtremeHeat | HighWind
| Cold | Hot | ModerateWind
| Otherwise.

Definition rule_tier (r : rule) : AlertTier :=
  match r with
  | ExtremeCold | ExtremeHeat | HighWind => Critical
  | Cold | Hot | ModerateWind => Warning
  | Otherwise => Normal
  end.

Definition rule_message (r : rule) : str :=
  match r with
  | ExtremeCold => lit "Extreme cold conditions - Exercise caution"
  | ExtremeHeat => lit "Extreme heat conditions - Limit exposure"
  | HighWind => lit "High wind speeds - Operations may be affected"
  | Cold => lit "Cold conditions - Take necessary precautions"
  | Hot => lit "Hot conditions - Stay hydrated"
  | ModerateWind => lit "Moderate wind speeds - Monitor conditions"
  | Otherwise => lit "Normal operating conditions"
  end.

(** Critical=red, Warning=yellow, Normal=green. *)
Definition tier_visual (t : AlertTier) : str * str :=
  match t with
  | Critical => (red_circle :: lit " Critical", lit "red")
  | Warning => (yellow_circle :: lit " Warning", lit "yellow")
  | Normal => (green_circle :: lit " Normal", lit "green")
  end.

(** First match wins, top to bottom. *)
Definition first_match (temperature wind_speed : pynum) : rule :=
  if num_lt temperature (-10) then ExtremeCold
  else if num_gt temperature 40 then ExtremeHeat
  else if num_gt wind_speed 20 then HighWind
  else if num_lt temperature 0 then Cold
  else if num_gt temperature 35 then Hot
  else if num_gt wind_speed 15 then ModerateWind
  else Otherwise.

(** ** The weather-code table *)

Definition WEATHER_CODES_items : list (Z * str) :=
  [ (0, lit "Clear sky");
    (1, lit "Mainly clear");
    (2, lit "Partly cloudy");
    (3, lit "Overcast");
    (45, lit "Foggy");
    (48, lit "Depositing rime fog");
    (51, lit "Light drizzle");
    (53, lit "Moderate drizzle");
    (55, lit "Dense drizzle");
    (61, lit "Slight rain");
    (63, lit "Moderate rain");
    (65, lit "Heavy rain");
    (71, lit "Slight snow");
    (73, lit "Moderate snow");
    (75, lit "Heavy snow");
    (77, lit "Snow grains");
    (80, lit "Slight rain showers");
    (81, lit "Moderate rain showers");
    (82, lit "Violent rainstorm");
    (85, lit "Slight snow showers");
    (86, lit "Heavy snow showers");
    (95, lit "Thunderstorm");
    (96, lit "Thunderstorm with slight hail");
    (99, lit "Thunderstorm with heavy hail") ].

(** A dict display inserts its items from left to right. *)
Definition WEATHER_CODES : gmap Z str :=
  fold_left (fun d item => <[item.1 := item.2]> d) WEATHER_CODES_items ∅.

(** The integer a float is equal to, when there is one: a float key finds
    the entry of the [int] it equals. *)
Definition float_as_integer (f : spec_float) : option Z :=
  match f with
  | S754_zero _ => Some 0
  | S754_finite s m e =>
      let n := if s then Z.neg m else Z.pos m in
      if 0 <=? e then Some (n * 2 ^ e)
      else if Z.pos m mod 2 ^ (- e) =? 0 then Some (n / 2 ^ (- e))
      else None
  | S754_infinity _ | S754_nan => None
  end.

(** The key a value is looked up under in a dict with [int] keys, if it
    can equal one; lists and dicts are unhashable. *)
Definition int_key (v : json) : result (option Z) :=
  match v with
  | JNum (PyInt z) => Ok (Some z)
  | JNum (PyFloat f) => Ok (float_as_integer f)
  | JBool b => Ok (Some (Z.b2z b))
  | JNull | JStr _ => Ok None
  | JArr _ | JObj _ => Raise (Exn TypeError (lit "unhashable type"))
  end.

Definition get_weather_description (code : json) : result str :=
  k ← int_key code;
  Ok (default (lit "Unknown") (k ≫= (WEATHER_CODES !!.))).

(** ** [urllib.parse.quote], which [requests.utils.quote] is

    The string is encoded to UTF-8 with [errors='strict'], then every byte
    that is not a letter, a digit, one of [_.-~] or the default safe
    character [/] is written [%XX] in upper-case hexadecimal. *)

Definition is_surrogate (c : N) : bool := ((0xD800 <=? c) && (c <=? 0xDFFF))%N.

(** UTF-8 of one code point; a surrogate (U+D800..U+DFFF) has no encoding
    and the codec raises [UnicodeEncodeError]. *)
Definition utf8_char (c : N) : option (list N) :=
  (if c <? 0x80 then Some [c]
   else if c <? 0x800 then
     Some [0xC0 + c / 0x40; 0x80 + c mod 0x40]
   else if is_surrogate c then None
   else if c <? 0x10000 then
     Some [0xE0 + c / 0x1000; 0x80 + (c / 0x40) mod 0x40; 0x80 + c mod 0x40]
   else if c <? 0x110000 then
     Some [0xF0 + c / 0x40000; 0x80 + (c / 0x1000) mod 0x40;
           0x80 + (c / 0x40) mod 0x40; 0x80 + c mod 0x40]
   else None)%N.

Fixpoint utf8_encode (s : str) : result (list N) :=
  match s with
  | [] => Ok []
  | c :: rest =>
      match utf8_char c with
      | Some bs => tl ← utf8_encode rest; Ok (bs ++ tl)
      | None => Raise (Exn UnicodeEncodeError [c])
      end
  end.

(** The strings the UTF-8 codec accepts: code points below U+110000 that
    are not surrogates. *)
Definition encodable (s : str) : bool :=
  forallb (fun c => (c <? 0x110000)%N && negb (is_surrogate c)) s.

Definition always_safe (b : N) : bool :=
  ((0x41 <=? b) && (b <=? 0x5A) || (0x61 <=? b) && (b <=? 0x7A)
   || (0x30 <=? b) && (b <=? 0x39)
   || (b =? 0x5F) || (b =? 0x2E) || (b =? 0x2D) || (b =? 0x7E))%N.

Definition hex_digit (d : N) : N :=
  (if d <? 10 then 0x30 + d else 0x41 + (d - 10))%N.

Definition quoter (b : N) : str :=
  (if always_safe b || (b =? 0x2F) then [b]
   else [0x25; hex_digit (b / 16); hex_digit (b mod 16)])%N.

Definition quote (s : str) : result str :=
  match s with
  | [] => Ok []
  | _ => bs ← utf8_encode s; Ok (concat (List.map quoter bs))
  end.

(** ** Calls into Streamlit and [requests]

    An f-string is kept as its pieces: literal text, and the [str()] of a
    value or of an exception, which is not computed here. *)

Inductive frag :=
| Txt (s : str)
| Str (v : json)
| ExnStr (e : exn).

Inductive event :=
| RequestsGet (url : list frag) (timeout : option Z)
| StError (body : list frag)
| StColumns (spec : list Z)
| StImage (image caption : str) (use_container_width : bool)
| StMarkdown (body : list frag)
| InColumn (column : nat) (e : event).

(** A computation leaves a trace of events and returns or raises. *)
Definition M (A : Type) : Type := list event * result A.

#[export] Instance M_ret : MRet M := fun A a => ([], Ok a).
#[export] Instance M_bind : MBind M := fun A B f m =>
  match m with
  | (t, Ok a) => let '(t', r) := f a in (t ++ t', r)
  | (t, Raise e) => (t, Raise e)
  end.

Definition emit (e : event) : M unit := ([e], Ok tt).
Definition lift {A} (r : result A) : M A := ([], r).
Definition raise {A} (e : exn) : M A := ([], Raise e).

(** [with col: body]: what the body draws goes into the column. *)
Definition with_column {A} (column : nat) (body : M A) : M A :=
  (List.map (InColumn column) body.1, body.2).

(** [try: body except ...: handler] *)
Definition try_except {A} (body : M A) (handler : exn -> M A) : M A :=
  match body with
  | (t, Ok a) => (t, Ok a)
  | (t, Raise e) => let '(t', r) := handler e in (t ++ t', r)
  end.

Definition placeholder_url : str :=
  lit "https://via.placeholder.com/800x600?text=Image+Not+Available".

Definition get_weather_image (location weather_desc : str) : M str :=
  try_except
    (let prompt :=
       location ++ lit " cityscape, " ++ weather_desc ++ lit ", professional photograph" in
     encoded_prompt ← lift (quote prompt);
     let image_url :=
       lit "https://image.pollinations.ai/prompt/" ++ encoded_prompt
         ++ lit "?width=800&height=600&nologo=true" in
     mret image_url)
    (fun e =>
       emit (StError [Txt (lit "Error generating image URL: "); ExnStr e]);;
       mret placeholder_url).

(** [obj[key]] for a string key. *)
Definition subscript (obj : json) (key : str) : result json :=
  match obj with
  | JObj fields =>
      match fields !! key with
      | Some v => Ok v
      | None => Raise (Exn KeyError key)
      end
  | _ => Raise (Exn TypeError (lit "indices must be integers or object is not subscriptable"))
  end.

(** [obj.get(key)] *)
Definition py_get (obj : json) (key : str) : result json :=
  match obj with
  | JObj fields => Ok (default JNull (fields !! key))
  | _ => Raise (Exn AttributeError (lit "get"))
  end.

(** The items a [for] loop runs over. *)
Definition py_iter (obj : json) : result (list json) :=
  match obj with
  | JArr items => Ok items
  | JStr s => Ok (List.map (fun c => JStr [c]) s)
  | JObj fields => Ok (List.map (fun kv => JStr kv.1) (map_to_list fields))
  | _ => Raise (Exn TypeError (lit "object is not iterable"))
  end.

(** [sep.join(parts)] on values: every item must be a [str]. *)
Definition py_join (sep : str) (parts : list json) : result str :=
  strs ← mapM (fun v => match v with
                        | JStr s => Ok s
                        | _ => Raise (Exn TypeError (lit "expected str instance"))
                        end) parts;
  Ok (join sep strs).

Record response := Response { status_code : Z; json_body : result json }.

(** [response.raise_for_status()] *)
Definition raise_for_status (r : response) : result unit :=
  if (400 <=? status_code r) && (status_code r <? 600)
  then Raise (Exn HTTPError (lit "Client or Server Error"))
  else Ok tt.

Record suggestion := Suggestion { name : str; lat : json; lon : json }.

Definition degree_sign : N := 0xB0%N.

(** The URL of the forecast request, an f-string over the coordinates. *)
Definition weather_url (lat lon : json) : list frag :=
  [Txt (lit "https://api.open-meteo.com/v1/forecast?latitude="); Str lat;
   Txt (lit "&longitude="); Str lon;
   Txt (lit "&current=temperature_2m,relative_humidity_2m,wind_speed_10m,weather_code&timezone=auto")].

(** The URL of the suggestion search; the query is pasted in as it is. *)
Definition suggestions_url (query : str) : list frag :=
  [Txt (lit "https://geocoding-api.open-meteo.com/v1/search?name=" ++ query
          ++ lit "&count=5&language=en&format=json")].

Section Client.

(** What the network answers to [requests.get(url, timeout=...)]: an
    exception or a response. *)
Variable network : list frag -> option Z -> result response.

Definition requests_get (url : list frag) (timeout : option Z) : M response :=
  ([RequestsGet url timeout], network url timeout).

Definition fetch_weather_data (lat lon : json) : M json :=
  try_except
    (let url := weather_url lat lon in
     response ← requests_get url (Some 10);
     lift (raise_for_status response);;
     lift (json_body response))
    (fun e =>
       if is_Timeout e then
         emit (StError [Txt (lit "Request timed out. Please try again.")]);;
         mret JNull
       else if is_RequestException e then
         emit (StError [Txt (lit "Error fetching weather data: "); ExnStr e]);;
         mret JNull
       else if is_ValueError e then
         emit (StError [Txt (lit "Error parsing weather data: "); ExnStr e]);;
         mret JNull
       else raise e).

Definition weather_card (location_name : str) (weather_data : json) : M unit :=
  if truthy weather_data then
    current ← lift (subscript weather_data (lit "current"));
    temp ← lift (subscript current (lit "temperature_2m"));
    humidity ← lift (subscript current (lit "relative_humidity_2m"));
    wind_speed ← lift (subscript current (lit "wind_speed_10m"));
    weather_code ← lift (subscript current (lit "weather_code"));
    weather_desc ← lift (get_weather_description weather_code);
    emit (StColumns [2; 3]);;
    with_column 1
      (image ← get_weather_image location_name weather_desc;
       emit (StImage image location_name true));;
    with_column 2
      (emit (StMarkdown [Txt (lit "### "); Txt location_name]);;
       emit (StMarkdown [Txt (lit "**Temperature:** "); Str temp; Txt (degree_sign :: lit "C")]);;
       emit (StMarkdown [Txt (lit "**Weather:** "); Txt weather_desc]);;
       emit (StMarkdown [Txt (lit "**Humidity:** "); Str humidity; Txt (lit "%")]);;
       emit (StMarkdown [Txt (lit "**Wind Speed:** "); Str wind_speed; Txt (lit " km/h")]);;
       status ← lift (get_alert_status temp wind_speed);
       emit (StMarkdown [Txt (lit "**Status:** "); Txt status.1]);;
       message ← lift (get_alert_message temp wind_speed);
       emit (StMarkdown [Txt (lit "_"); Txt message; Txt (lit "_")]))
  else mret tt.

(** The body of the loop over [data['results']]. *)
Definition format_suggestion (item : json) : result suggestion :=
  name ← subscript item (lit "name");
  let location_parts := [name] in
  admin1 ← py_get item (lit "admin1");
  let location_parts :=
    if truthy admin1 then location_parts ++ [admin1] else location_parts in
  country ← py_get item (lit "country");
  let location_parts :=
    if truthy country then location_parts ++ [country] else location_parts in
  joined ← py_join (lit ", ") location_parts;
  latitude ← subscript item (lit "latitude");
  longitude ← subscript item (lit "longitude");
  Ok {| name := joined; lat := latitude; lon := longitude |}.

Definition get_location_suggestions (query : str) : M (list suggestion) :=
  try_except
    (if (length query <? 2)%nat then mret [] else
     response ← requests_get (suggestions_url query) None;
     lift (raise_for_status response);;
     data ← lift (json_body response);
     found ← lift (py_get data (lit "results"));
     if negb (truthy found) then mret [] else
     results ← lift (subscript data (lit "results") ≫= py_iter);
     suggestions ← lift (mapM format_suggestion results);
     mret suggestions)
    (fun e =>
       emit (StError [Txt (lit "Error fetching suggestions: "); ExnStr e]);;
       mret []).

End Client.

(** ** Reading a geocoding result

    A result of the geocoding API has [name], [latitude] and [longitude];
    [admin1] and [country] are optional.  A field is present when
    [item.get(key)] is true in an [if]: the key is there and its value is
    not [None] and not empty. *)

Definition field (item : json) (key : str) : json :=
  match item with
  | JObj fields => default JNull (fields !! key)
  | _ => JNull
  end.

Definition has_key (item : json) (key : str) : bool :=
  match item with
  | JObj fields => bool_decide (is_Some (fields !! key))
  | _ => false
  end.

Definition present (item : json) (key : str) : bool := truthy (field item key).

Definition is_str (v : json) : bool :=
  match v with
  | JStr _ => true
  | _ => false
  end.

Definition text (v : json) : str :=
  match v with
  | JStr s => s
  | _ => []
  end.

Definition well_formed_result (item : json) : bool :=
  has_key item (lit "name") && is_str (field item (lit "name"))
  && has_key item (lit "latitude") && has_key item (lit "longitude")
  && (is_str (field item (lit "admin1")) || negb (present item (lit "admin1")))
  && (is_str (field item (lit "country")) || negb (present item (lit "country"))).

(** The suggestion the loop body makes of a well-formed result. *)
Definition suggestion_of (item : json) : suggestion :=
  {| name :=
       join (lit ", ")
         (text (field item (lit "name"))
          :: (if present item (lit "admin1")
              then [text (field item (lit "admin1"))] else [])
          ++ (if present item (lit "country")
              then [text (field item (lit "country"))] else []));
     lat := field item (lit "latitude");
     lon := field item (lit "longitude") |}.

(** Networks of the examples. *)

Definition timing_out : list frag -> option Z -> result response :=
  fun _ _ => Raise (Exn ReadTimeout (lit "Read timed out.")).

Definition refusing : list frag -> option Z -> result response :=
  fun _ _ => Raise (Exn ConnectionError (lit "Connection refused")).

Definition garbled (kind : exn_class) : list frag -> option Z -> result response :=
  fun _ _ => Ok (Response 200 (Raise (Exn kind (lit "Expecting value")))).

Definition answering (data : json) : list frag -> option Z -> result response :=
  fun _ _ => Ok (Response 200 (Ok data)).

Definition obj (items : list (str * json)) : json := JObj (list_to_map items).

Definition snow_report : json :=
  obj [(lit "current",
        obj [(lit "temperature_2m", JInt (-15)); (lit "relative_humidity_2m", JInt 40);
             (lit "wind_speed_10m", JInt 5); (lit "weather_code", JInt 71)])].

Definition leh : json :=
  obj [(lit "name", JStr (lit "Leh")); (lit "latitude", JFloat (binary64 34));
       (lit "longitude", JFloat (binary64 77)); (lit "admin1", JStr (lit "Ladakh"));
       (lit "country", JStr (lit "India"))].

Definition monaco : json :=
  obj [(lit "name", JStr (lit "Monaco")); (lit "latitude", JFloat (binary64 43));
       (lit "longitude", JFloat (binary64 7)); (lit "country", JStr (lit "Monaco"))].

Definition nowhere : json :=
  obj [(lit "name", JStr (lit "Nowhere")); (lit "latitude", JInt 1);
       (lit "longitude", JInt 2); (lit "admin1", JStr []);
       (lit "country", JStr (lit "Utopia"))].

Definition atlantis : json :=
  obj [(lit "name", JStr (lit "Atlantis")); (lit "latitude", JInt 0);
       (lit "longitude", JInt 0); (lit "admin1", JNull)].


(** ** Characters of a quoted string *)

(** A character [quote] leaves as it is. *)
Definition kept_by_quote (c : N) : bool := (always_safe c || (c =? 0x2F))%N.

(** A character a quoted string can hold: a kept one or the [%] of an
    escape. *)
Definition quoted_char (c : N) : bool := (kept_by_quote c || (c =? 0x25))%N.

(** ** Parts of a weather card *)


(** What the card has drawn when it comes to the status: the columns, the
    image with what building its URL reported, and the four readings. *)
Definition card_head (location_name : str) (temp humidity wind_speed : json)
    (weather_desc : str) : list event :=
  let image := get_weather_image location_name weather_desc in
  StColumns [2; 3]
  :: (InColumn 1 <$>
        image.1 ++ match image.2 with
                   | Ok url => [StImage url location_name true]
                   | Raise _ => []
                   end)
  ++ (InColumn 2 <$>
        [StMarkdown [Txt (lit "### "); Txt location_name];
         StMarkdown [Txt (lit "**Temperature:** "); Str temp; Txt (degree_sign :: lit "C")];
         StMarkdown [Txt (lit "**Weather:** "); Txt weather_desc];
         StMarkdown [Txt (lit "**Humidity:** "); Str humidity; Txt (lit "%")];
         StMarkdown [Txt (lit "**Wind Speed:** "); Str wind_speed; Txt (lit " km/h")]]).

(** The four readings of a report, looked up as the card does. *)
Definition readings_of (weather_data : json) : result (json * json * json * json) :=
  current ← subscript weather_data (lit "current");
  temp ← subscript current (lit "temperature_2m");
  humidity ← subscript current (lit "relative_humidity_2m");
  wind_speed ← subscript current (lit "wind_speed_10m");
  weather_code ← subscript current (lit "weather_code");
  Ok (temp, humidity, wind_speed, weather_code).

(** A report with a missing temperature, as a station that is down gives. *)
Definition silent_report : json :=
  obj [(lit "current",
        obj [(lit "temperature_2m", JNull); (lit "relative_humidity_2m", JInt 40);
             (lit "wind_speed_10m", JInt 5); (lit "weather_code", JInt 3)])].

Definition status_line (label : str) : event :=
  InColumn 2 (StMarkdown [Txt (lit "**Status:** "); Txt label]).

Definition message_line (message : str) : event :=
  InColumn 2 (StMarkdown [Txt (lit "_"); Txt message; Txt (lit "_")]).

(** ** The page

    [main] runs once per interaction.  What the visitor did comes in as
    the text of the search box and the buttons that are pressed; the
    session state goes in and comes out; the calls to Streamlit are
    recorded without asking what Streamlit does with them. *)

(** The double written as the decimal [n / d] in the source. *)
Definition decimal (n d : Z) : spec_float := SFdiv 53 1024 (binary64 n) (binary64 d).

Definition DEFAULT_LOCATIONS : list suggestion :=
  [ {| name := lit "Ladakh";
       lat := JFloat (decimal 341526 10000); lon := JFloat (decimal 775771 10000) |};
    {| name := lit "Arunachal Pradesh";
       lat := JFloat (decimal 282180 10000); lon := JFloat (decimal 947278 10000) |};
    {| name := lit "Sikkim";
       lat := JFloat (decimal 273389 10000); lon := JFloat (decimal 886065 10000) |};
    {| name := lit "Kashmir";
       lat := JFloat (decimal 340837 10000); lon := JFloat (decimal 747973 10000) |} ].

Inductive container :=
| SearchCol
| ButtonCol
| Spinner (text : str)
| Col (index : nat)
| Expander (label : str) (expanded : bool).

Inductive page_event :=
| Draw (e : event)
| StTitle (body : str)
| StMarkdownHtml (body : str)
| StTextInput (label value placeholder key : str)
| StButton (label : str) (key help : option str)
| StSuccess (body : list frag)
| StSubheader (body : list frag)
| StWarning (body : list frag)
| StColumnCount (n : Z)
| StExperimentalRerun
| Within (c : container) (e : page_event).

(** [st.session_state]: a key that was never set is [None]; the selected
    location is a suggestion or Python's [None]. *)
Record session_state := Session {
  search_query : option str;
  selected_location : option (option suggestion)
}.

Record visitor := Visitor {
  typed : str;
  pressed : str -> option str -> bool
}.

(** How the body of [main] ends: by running off its end or by [return]. *)
Inductive flow := Next | Return.

Definition Page (A : Type) : Type :=
  session_state -> list page_event * session_state * result A.

#[export] Instance Page_ret : MRet Page := fun A a s => ([], s, Ok a).
#[export] Instance Page_bind : MBind Page := fun A B f m s =>
  match m s with
  | (t, s', Ok a) => let '(t', s'', r) := f a s' in (t ++ t', s'', r)
  | (t, s', Raise e) => (t, s', Raise e)
  end.

Definition draw (e : page_event) : Page unit := fun s => ([e], s, Ok tt).
Definition run {A} (m : M A) : Page A := fun s => (Draw <$> m.1, s, m.2).
Definition get_state : Page session_state := fun s => ([], s, Ok s).
Definition set_state (s' : session_state) : Page unit := fun _ => ([], s', Ok tt).
Definition fail {A} (r : result A) : Page A := fun s => ([], s, r).

(** [with c: body] *)
Definition within {A} (c : container) (body : Page A) : Page A := fun s =>
  let '(t, s', r) := body s in (Within c <$> t, s', r).

(** [try: body except Exception as e: handler] *)
Definition try_page {A} (body : Page A) (handler : exn -> Page A) : Page A := fun s =>
  match body s with
  | (t, s', Ok a) => (t, s', Ok a)
  | (t, s', Raise e) => let '(t', s'', r) := handler e s' in (t ++ t', s'', r)
  end.

(** [for x in items: body] *)
Fixpoint for_each {A} (items : list A) (body : A -> Page unit) : Page unit :=
  match items with
  | [] => mret tt
  | x :: rest => body x ;; for_each rest body
  end.

(** [enumerate(items)] *)
Definition enumerate {A} (items : list A) : list (nat * A) :=
  combine (seq 0 (length items)) items.

Definition medal : str := [0x1F396; 0xFE0F]%N.
Definition magnifier : N := 0x1F50D%N.
Definition pushpin : N := 0x1F4CD%N.
Definition arrows : N := 0x1F504%N.

Definition page_style : str := lit "
        <style>
        .search-container { margin-bottom: 1rem; }
        .suggestion-item {
            padding: 8px 16px;
            cursor: pointer;
            border-bottom: 1px solid #eee;
        }
        .suggestion-item:hover {
            background-color: #f0f2f6;
        }
        </style>
    ".

(** The URL of the search behind the button: one result is asked for. *)
Definition search_url (query : str) : list frag :=
  [Txt (lit "https://geocoding-api.open-meteo.com/v1/search?name=" ++ query
          ++ lit "&count=1&language=en&format=json")].

(** [response.ok] *)
Definition ok (r : response) : bool :=
  match raise_for_status r with
  | Ok _ => true
  | Raise _ => false
  end.

(** [obj[0]] *)
Definition first_item (obj : json) : result json :=
  match obj with
  | JArr (x :: _) => Ok x
  | JArr [] => Raise (Exn OtherException (lit "list index out of range"))
  | JStr (c :: _) => Ok (JStr [c])
  | JStr [] => Raise (Exn OtherException (lit "string index out of range"))
  | JObj _ => Raise (Exn KeyError (lit "0"))
  | _ => Raise (Exn TypeError (lit "object is not subscriptable"))
  end.

Section Page.

Variable network : list frag -> option Z -> result response.

(** [str(v)] for a value that is not a string. *)
Variable py_str : json -> str.

Variable user : visitor.

(** A name as the f-strings of a card show it: a string as it is, another
    value through [str].  The caption of the image is given the same
    text. *)
Definition shown_name (v : json) : str :=
  match v with
  | JStr s => s
  | _ => py_str v
  end.

Definition st_button (label : str) (key help : option str) : Page bool := fun s =>
  ([StButton label key help], s, Ok (pressed user label key)).

(** "Show suggestions while typing" *)
Definition show_suggestions (query : str) : Page unit :=
  if negb (Nat.eqb (length query) 0) && (2 <=? length query)%nat then
    suggestions ← run (get_location_suggestions network query);
    if negb (Nat.eqb (length suggestions) 0) then
      draw (Draw (StMarkdown [Txt (lit "### Suggestions:")]));;
      for_each suggestions (fun suggestion =>
        clicked ← st_button (name suggestion)
                    (Some (lit "suggestion_" ++ name suggestion))
                    (Some (lit "Click to view weather for " ++ name suggestion));
        if clicked : bool then
          s ← get_state;
          set_state {| search_query := search_query s;
                       selected_location := Some (Some suggestion) |};;
          s ← get_state;
          set_state {| search_query := Some (name suggestion);
                       selected_location := selected_location s |}
        else mret tt)
    else mret tt
  else mret tt.

(** The branch of "Handle search" for a location picked from the
    suggestions. *)
Definition show_selected (location : suggestion) : Page flow :=
  weather_data ← run (fetch_weather_data network (lat location) (lon location));
  (if truthy weather_data then
     draw (StSuccess [Txt (lit "Found weather data for "); Txt (name location)]);;
     draw (StSubheader [Txt (lit "Weather in "); Txt (name location)]);;
     run (weather_card (name location) weather_data)
   else
     draw (Draw (StError [Txt (lit "Unable to fetch weather data for this location")])));;
  s ← get_state;
  set_state {| search_query := search_query s; selected_location := Some None |};;
  mret Next.

(** The branch of "Handle search" for the search button. *)
Definition search_by_name (query : str) : Page flow :=
  geo_response ← run (requests_get network (search_url query) None);
  if negb (ok geo_response) then
    draw (Draw (StError [Txt (lit "Error accessing geocoding service: ");
                         Str (JInt (status_code geo_response))]));;
    mret Return
  else
  geo_data ← fail (json_body geo_response);
  found ← fail (py_get geo_data (lit "results"));
  if negb (truthy found) then
    draw (StWarning [Txt (lit "No results found for '" ++ query
                            ++ lit "'. Please try a different location.")]);;
    mret Return
  else
  location ← fail (subscript geo_data (lit "results") ≫= first_item);
  latitude ← fail (subscript location (lit "latitude"));
  longitude ← fail (subscript location (lit "longitude"));
  weather_data ← run (fetch_weather_data network latitude longitude);
  (if truthy weather_data then
     found_name ← fail (subscript location (lit "name"));
     draw (StSuccess [Txt (lit "Found weather data for "); Str found_name]);;
     weather_name ← fail (subscript location (lit "name"));
     draw (StSubheader [Txt (lit "Weather in "); Str weather_name]);;
     card_name ← fail (subscript location (lit "name"));
     run (weather_card (shown_name card_name) weather_data)
   else
     draw (Draw (StError [Txt (lit "Unable to fetch weather data for this location")])));;
  mret Next.

(** "Handle search" *)
Definition handle_search (query : str) (search_button : bool) : Page flow :=
  s ← get_state;
  if search_button || bool_decide (is_Some (selected_location s ≫= id)) then
    try_page
      (within (Spinner (lit "Fetching weather data..."))
         (s ← get_state;
          match selected_location s ≫= id with
          | Some location => show_selected location
          | None => search_by_name query
          end))
      (fun e =>
         if is_RequestException e then
           draw (Draw (StError [Txt (lit "Network error: "); ExnStr e]));;
           mret Next
         else
           draw (Draw (StError [Txt (lit "An error occurred: "); ExnStr e]));;
           mret Next)
  else mret Next.

(** "Strategic Locations" *)
Definition strategic_locations : Page unit :=
  draw (Draw (StMarkdown [Txt (lit "---")]));;
  draw (StSubheader [Txt (lit "Strategic Locations")]);;
  draw (StColumnCount 2);;
  for_each (enumerate DEFAULT_LOCATIONS) (fun '(idx, location) =>
    within (Col (if Nat.even idx then 1 else 2))
      (weather_data ← run (fetch_weather_data network (lat location) (lon location));
       if truthy weather_data then
         within (Expander (pushpin :: lit " " ++ name location) true)
           (run (weather_card (name location) weather_data))
       else mret tt)).

Definition refresh_button : Page unit :=
  clicked ← st_button (arrows :: lit " Refresh Data") None None;
  if clicked : bool then draw StExperimentalRerun else mret tt.

Definition main : Page unit :=
  draw (StTitle (medal ++ lit " Military Weather Monitoring System"));;
  draw (StMarkdownHtml page_style);;
  s ← get_state;
  (if search_query s is None
   then set_state {| search_query := Some []; selected_location := selected_location s |}
   else mret tt);;
  s ← get_state;
  (if selected_location s is None
   then set_state {| search_query := search_query s; selected_location := Some None |}
   else mret tt);;
  draw (Draw (StColumns [4; 1]));;
  query ← within SearchCol
    (s ← get_state;
     draw (StTextInput (lit "Search Location") (default [] (search_query s))
             (lit "Start typing a location name...") (lit "location_search"));;
     mret (typed user));
  search_button ← within ButtonCol (st_button (magnifier :: lit " Search") None None);
  show_suggestions query;;
  outcome ← handle_search query search_button;
  match outcome with
  | Return => mret tt
  | Next => strategic_locations;; refresh_button
  end.

End Page.

(** The requests a page has made, in order. *)
Fixpoint event_request (e : event) : list (list frag * option Z) :=
  match e with
  | RequestsGet url timeout => [(url, timeout)]
  | InColumn _ e' => event_request e'
  | _ => []
  end.

Fixpoint page_request (e : page_event) : list (list frag * option Z) :=
  match e with
  | Draw e' => event_request e'
  | Within _ e' => page_request e'
  | _ => []
  end.

Definition page_requests (trace : list page_event) : list (list frag * option Z) :=
  concat (List.map page_request trace).

(** The forecast request of a location of the list. *)
Definition forecast_request (location : suggestion) : list frag * option Z :=
  (weather_url (lat location) (lon location), Some 10).

(** A visitor who types and presses nothing. *)
Definition idle : visitor := Visitor [] (fun _ _ => false).

(** A visitor who types a name and presses Search. *)
Definition searching (query : str) : visitor :=
  Visitor query (fun label key =>
                   match key with
                   | None => bool_decide (label = magnifier :: lit " Search")
                   | Some _ => false
                   end).

Definition fresh : session_state := Session None None.

(** The button of a suggestion, and whether the visitor pressed it. *)
Definition suggestion_button (suggestion : suggestion) : page_event :=
  StButton (name suggestion)
    (Some (lit "suggestion_" ++ name suggestion))
    (Some (lit "Click to view weather for " ++ name suggestion)).

Definition picked (user : visitor) (suggestion : suggestion) : bool :=
  pressed user (name suggestion) (Some (lit "suggestion_" ++ name suggestion)).

(** The session after the buttons of the suggestions: each pressed button
    stores its suggestion, so the last one pressed stays. *)
Definition after_buttons (user : visitor) (suggestions : list suggestion)
    (s : session_state) : session_state :=
  fold_left (fun s suggestion =>
               if picked user suggestion
               then {| search_query := Some (name suggestion);
                       selected_location := Some (Some suggestion) |}
               else s)
            suggestions s.

(** The session once [main] has set the keys that were missing. *)
Definition initialised (s : session_state) : session_state :=
  {| search_query := Some (default [] (search_query s));
     selected_location := Some (default None (selected_location s)) |}.

(** What [main] draws before it looks at the search text. *)
Definition page_top (s : session_state) : list page_event :=
  [StTitle (medal ++ lit " Military Weather Monitoring System");
   StMarkdownHtml page_style;
   Draw (StColumns [4; 1]);
   Within SearchCol
     (StTextInput (lit "Search Location") (default [] (search_query s))
        (lit "Start typing a location name...") (lit "location_search"));
   Within ButtonCol (StButton (magnifier :: lit " Search") None None)].

Definition strategic_header : page_event :=
  StSubheader [Txt (lit "Strategic Locations")].

(** A visitor who types a name and presses the button of one suggestion. *)
Definition picking (query wanted : str) : visitor :=
  Visitor query (fun label key =>
                   match key with
                   | Some _ => bool_decide (label = wanted)
                   | None => false
                   end).

(** * Properties *)

(** ** Comparisons of floats *)

Lemma SFcompare_antisym (a b : spec_float) :
  SFcompare b a = CompOpp <$> SFcompare a b.
Proof.
  destruct a as [sa|sa| |sa ma ea], b as [sb|sb| |sb mb eb]; simpl;
    try destruct sa; try destruct sb; try reflexivity;
    rewrite (Z.compare_antisym ea eb); destruct (ea ?= eb); simpl; try reflexivity;
    change (Pos.compare_cont Eq mb ma) with (mb ?= ma)%positive;
    change (Pos.compare_cont Eq ma mb) with (ma ?= mb)%positive;
    rewrite (Pos.compare_antisym ma mb);
    destruct (ma ?= mb)%positive; reflexivity.
Qed.

Lemma SFleb_not_gt (a b : spec_float) : SFleb a b = true -> SFltb b a = false.
Proof.
  unfold SFleb, SFltb. rewrite (SFcompare_antisym a b).
  destruct (SFcompare a b) as [[]|]; simpl; congruence.
Qed.

Lemma SFeqb_finite (f : spec_float) s m e :
  SFeqb f (S754_finite s m e) = true -> f = S754_finite s m e.
Proof.
  unfold SFeqb.
  destruct f as [sf|sf| |sf mf ef]; simpl; try (destruct sf; discriminate);
    try (destruct s; discriminate).
  destruct sf, s; try discriminate;
    destruct (ef ?= e) eqn:He; try discriminate;
    apply Z.compare_eq in He; subst ef;
    destruct (Pos.compare_cont Eq mf m) eqn:Hm; try discriminate;
    apply Pos.compare_eq in Hm; subst mf; reflexivity.
Qed.

Lemma num_ge_not_lt (x : pynum) (k : Z) : num_ge x k = true -> num_lt x k = false.
Proof.
  destruct x as [z|f]; simpl.
  - intros H. apply Z.leb_le in H. apply Z.ltb_ge. exact H.
  - apply SFleb_not_gt.
Qed.

Lemma num_le_not_gt (x : pynum) (k : Z) : num_le x k = true -> num_gt x k = false.
Proof.
  destruct x as [z|f]; simpl.
  - intros H. apply Z.leb_le in H. apply Z.ltb_ge. exact H.
  - apply SFleb_not_gt.
Qed.

(** A number equal to a non-zero integer literal compares as the literal
    does. *)
Lemma num_eq_minus_10 (x : pynum) :
  num_eq x (-10) = true -> x = PyInt (-10) \/ x = PyFloat (binary64 (-10)).
Proof.
  destruct x as [z|f]; simpl.
  - intros H. apply Z.eqb_eq in H. left. congruence.
  - intros H. right. f_equal. apply SFeqb_finite in H. exact H.
Qed.

Lemma num_eq_40 (x : pynum) :
  num_eq x 40 = true -> x = PyInt 40 \/ x = PyFloat (binary64 40).
Proof.
  destruct x as [z|f]; simpl.
  - intros H. apply Z.eqb_eq in H. left. congruence.
  - intros H. right. f_equal. apply SFeqb_finite in H. exact H.
Qed.

(** ** The alert classifier *)

(** On numbers the two functions never raise; this is how they branch. *)
Lemma get_alert_message_num (t w : pynum) :
  get_alert_message (JNum t) (JNum w) =
  Ok (if num_lt t (-10) then extreme_cold_message
      else if num_gt t 40 then extreme_heat_message
      else if num_gt w 20 then high_wind_message
      else if num_lt t 0 then cold_message
      else if num_gt t 35 then hot_message
      else if num_gt w 15 then moderate_wind_message
      else normal_message).
Proof.
  unfold get_alert_message, py_lt, py_gt; simpl.
  repeat (match goal with |- context [if ?c then _ else _] => destruct c end; simpl;
          try reflexivity).
Qed.

Lemma get_alert_status_num (t w : pynum) :
  get_alert_status (JNum t) (JNum w) =
  Ok (if num_lt t (-10) || num_gt t 40 || num_gt w 20 then critical_status
      else if num_lt t 0 || num_gt t 35 || num_gt w 15 then warning_status
      else normal_status).
Proof.
  unfold get_alert_status, or_else, py_lt, py_gt; simpl.
  destruct (num_lt t (-10)), (num_gt t 40), (num_gt w 20),
    (num_lt t 0), (num_gt t 35), (num_gt w 15); reflexivity.
Qed.

(** C1: for every temperature and wind speed the message and the status
    are those of the first rule that matches, in the order extreme cold
    (t < -10), extreme heat (t > 40), high wind (w > 20), cold (t < 0),
    hot (t > 35), moderate wind (w > 15), otherwise normal; in particular
    t < -10 gives Critical with the extreme-cold message whatever the
    wind. *)
Theorem alert_follows_decision_order (t w : pynum) :
  get_alert_message (JNum t) (JNum w) = Ok (rule_message (first_match t w)) /\
  get_alert_status (JNum t) (JNum w) = Ok (tier_visual (rule_tier (first_match t w))) /\
  (num_lt t (-10) = true ->
   get_alert_status (JNum t) (JNum w) = Ok (tier_visual Critical) /\
   get_alert_message (JNum t) (JNum w)
     = Ok (lit "Extreme cold conditions - Exercise caution")).
Proof.
  rewrite get_alert_message_num, get_alert_status_num. unfold first_match.
  split; [|split].
  - destruct (num_lt t (-10)), (num_gt t 40), (num_gt w 20),
      (num_lt t 0), (num_gt t 35), (num_gt w 15); reflexivity.
  - destruct (num_lt t (-10)), (num_gt t 40), (num_gt w 20),
      (num_lt t 0), (num_gt t 35), (num_gt w 15); reflexivity.
  - intros ->. split; reflexivity.
Qed.

Lemma alert_follows_decision_order_witness :
  num_lt (PyFloat (binary64 (-15))) (-10) = true /\
  get_alert_status (JFloat (binary64 (-15))) (JFloat (binary64 5))
    = Ok (tier_visual Critical).
Proof.
  split; [reflexivity|].
  apply (alert_follows_decision_order (PyFloat (binary64 (-15))) (PyFloat (binary64 5))).
  reflexivity.
Defined.

(** C2: the status and the message, computed apart, agree on the tier:
    the status is the red Critical pair exactly when the message is one of
    the three Critical messages, the yellow Warning pair exactly when it
    is one of the three Warning messages, and the green Normal pair
    exactly when it is the normal message. *)
Theorem status_agrees_with_message (t w : pynum) :
  exists status message,
    get_alert_status (JNum t) (JNum w) = Ok status /\
    get_alert_message (JNum t) (JNum w) = Ok message /\
    (status = tier_visual Critical <->
     In message [extreme_cold_message; extreme_heat_message; high_wind_message]) /\
    (status = tier_visual Warning <->
     In message [cold_message; hot_message; moderate_wind_message]) /\
    (status = tier_visual Normal <-> message = normal_message) /\
    rule_tier (first_match t w)
      = (if decide (status = tier_visual Critical) then Critical
         else if decide (status = tier_visual Warning) then Warning
         else Normal).
Proof.
  rewrite get_alert_message_num, get_alert_status_num. unfold first_match.
  eexists; eexists. split; [reflexivity|]. split; [reflexivity|].
  destruct (num_lt t (-10)), (num_gt t 40), (num_gt w 20),
    (num_lt t 0), (num_gt t 35), (num_gt w 15);
    vm_compute; (repeat split; try reflexivity; intros H;
      repeat match goal with
             | H : _ \/ _ |- _ => destruct H
             | H : False |- _ => destruct H
             end; try discriminate; auto 6).
Qed.

(** C4: when -10 <= t <= 40 and w <= 20, and no Warning condition holds,
    that is 0 <= t <= 35 and w <= 15, the status is Normal and the message
    is the normal one. *)
Theorem normal_inside_all_thresholds (t w : pynum) :
  num_ge t (-10) = true -> num_le t 40 = true -> num_le w 20 = true ->
  num_ge t 0 = true -> num_le t 35 = true -> num_le w 15 = true ->
  get_alert_status (JNum t) (JNum w) = Ok (tier_visual Normal) /\
  get_alert_message (JNum t) (JNum w) = Ok (lit "Normal operating conditions").
Proof.
  intros Hc1 Hc2 Hc3 Hw1 Hw2 Hw3.
  rewrite get_alert_message_num, get_alert_status_num.
  rewrite (num_ge_not_lt _ _ Hc1), (num_le_not_gt _ _ Hc2), (num_le_not_gt _ _ Hc3),
    (num_ge_not_lt _ _ Hw1), (num_le_not_gt _ _ Hw2), (num_le_not_gt _ _ Hw3).
  split; reflexivity.
Qed.

Lemma normal_inside_all_thresholds_witness :
  get_alert_status (JFloat (binary64 20)) (JFloat (binary64 5)) = Ok (tier_visual Normal) /\
  get_alert_message (JFloat (binary64 20)) (JFloat (binary64 5))
    = Ok (lit "Normal operating conditions").
Proof.
  apply (normal_inside_all_thresholds (PyFloat (binary64 20)) (PyFloat (binary64 5)));
    reflexivity.
Defined.

(** C5: a temperature of exactly -10 does not match the extreme-cold rule
    and one of exactly 40 does not match the extreme-heat rule, whatever
    the wind; the rules that remain decide: high wind above 20, otherwise
    cold at -10 and hot at 40. *)
Theorem boundary_temperatures_are_not_extreme (t w : pynum) :
  (num_eq t (-10) = true ->
   num_lt t (-10) = false /\
   first_match t w = (if num_gt w 20 then HighWind else Cold) /\
   get_alert_message (JNum t) (JNum w)
     = Ok (if num_gt w 20 then high_wind_message else cold_message) /\
   get_alert_status (JNum t) (JNum w)
     = Ok (if num_gt w 20 then critical_status else warning_status)) /\
  (num_eq t 40 = true ->
   num_gt t 40 = false /\
   first_match t w = (if num_gt w 20 then HighWind else Hot) /\
   get_alert_message (JNum t) (JNum w)
     = Ok (if num_gt w 20 then high_wind_message else hot_message) /\
   get_alert_status (JNum t) (JNum w)
     = Ok (if num_gt w 20 then critical_status else warning_status)).
Proof.
  rewrite get_alert_message_num, get_alert_status_num. unfold first_match.
  split; intros H.
  - apply num_eq_minus_10 in H.
    destruct H as [-> | ->]; destruct (num_gt w 20), (num_gt w 15);
      repeat split; reflexivity.
  - apply num_eq_40 in H.
    destruct H as [-> | ->]; destruct (num_gt w 20), (num_gt w 15);
      repeat split; reflexivity.
Qed.

Lemma boundary_temperatures_are_not_extreme_witness :
  get_alert_message (JFloat (binary64 (-10))) (JFloat (binary64 25))
    = Ok high_wind_message /\
  get_alert_message (JInt 40) (JFloat (binary64 3)) = Ok hot_message.
Proof.
  split.
  - destruct (proj1 (boundary_temperatures_are_not_extreme
                       (PyFloat (binary64 (-10))) (PyFloat (binary64 25))))
      as (_ & _ & H & _); [reflexivity | exact H].
  - destruct (proj2 (boundary_temperatures_are_not_extreme
                       (PyInt 40) (PyFloat (binary64 3))))
      as (_ & _ & H & _); [reflexivity | exact H].
Defined.

(** ** The weather-code table *)

Section DictDisplay.
Context {V : Type}.
Implicit Types (items : list (Z * V)) (d : gmap Z V).

Let display items d := fold_left (fun d item => <[item.1 := item.2]> d) items d.

Lemma display_lookup_other items d (k : Z) :
  k ∉ items.*1 -> display items d !! k = d !! k.
Proof.
  revert d. induction items as [|[k' v'] rest IH]; intros d Hk; [reflexivity|].
  simpl in *. apply not_elem_of_cons in Hk as [Hne Hk].
  unfold display in IH. rewrite IH by exact Hk.
  apply lookup_insert_ne. congruence.
Qed.

Lemma display_lookup_item items d (k : Z) (v : V) :
  NoDup items.*1 -> (k, v) ∈ items -> display items d !! k = Some v.
Proof.
  revert d. induction items as [|[k' v'] rest IH]; intros d Hnd Hin.
  - apply elem_of_nil in Hin. destruct Hin.
  - simpl in *. apply NoDup_cons in Hnd as [Hfresh Hnd].
    apply elem_of_cons in Hin as [Heq | Hin].
    + injection Heq as <- <-.
      change (display rest (<[k:=v]> d) !! k = Some v).
      rewrite display_lookup_other by exact Hfresh. apply lookup_insert_eq.
    + apply IH; assumption.
Qed.

End DictDisplay.

Lemma WEATHER_CODES_keys_distinct : NoDup WEATHER_CODES_items.*1.
Proof. apply (bool_decide_unpack _). vm_compute. reflexivity. Qed.

Lemma get_weather_description_int (code : Z) :
  get_weather_description (JInt code)
  = Ok (default (lit "Unknown") (WEATHER_CODES !! code)).
Proof. reflexivity. Qed.

(** The table has 24 entries, not 29. *)
Lemma WEATHER_CODES_has_not_29_entries : size WEATHER_CODES <> 29%nat.
Proof. vm_compute. discriminate. Qed.

(** C3 (amended): the description is defined for every integer: each of
    the 24 codes of the table gives its label, and every other integer,
    negative ones included, gives "Unknown". *)
Theorem weather_description_total :
  size WEATHER_CODES = 24%nat /\
  (forall code label,
     (code, label) ∈ WEATHER_CODES_items ->
     get_weather_description (JInt code) = Ok label) /\
  (forall code,
     code ∉ WEATHER_CODES_items.*1 ->
     get_weather_description (JInt code) = Ok (lit "Unknown")).
Proof.
  split; [vm_compute; reflexivity|]. split.
  - intros code label Hin. rewrite get_weather_description_int.
    unfold WEATHER_CODES.
    rewrite (display_lookup_item _ _ _ _ WEATHER_CODES_keys_distinct Hin).
    reflexivity.
  - intros code Hout. rewrite get_weather_description_int.
    unfold WEATHER_CODES. rewrite (display_lookup_other _ _ _ Hout).
    rewrite lookup_empty. reflexivity.
Qed.

Lemma weather_description_total_witness :
  get_weather_description (JInt 71) = Ok (lit "Slight snow") /\
  get_weather_description (JInt (-1)) = Ok (lit "Unknown") /\
  get_weather_description (JInt 100) = Ok (lit "Unknown").
Proof.
  destruct weather_description_total as (_ & Hin & Hout).
  split; [|split].
  - apply Hin. apply (bool_decide_unpack _). vm_compute. reflexivity.
  - apply Hout. apply (bool_decide_unpack _). vm_compute. reflexivity.
  - apply Hout. apply (bool_decide_unpack _). vm_compute. reflexivity.
Defined.

(** ** Computations with a trace *)

Lemma bind_lift_Ok {A B} (a : A) (f : A -> M B) : lift (Ok a) ≫= f = f a.
Proof. unfold lift, mbind, M_bind. destruct (f a); reflexivity. Qed.

Lemma bind_lift_Raise {A B} (e : exn) (f : A -> M B) :
  lift (Raise e) ≫= f = ([], Raise e).
Proof. reflexivity. Qed.

Lemma try_except_Raise {A} t e (handler : exn -> M A) :
  try_except (t, Raise e) handler = (t ++ (handler e).1, (handler e).2).
Proof. unfold try_except. destruct (handler e); reflexivity. Qed.

(** ** The image URL *)

Lemma utf8_char_encodable (c : N) :
  ((c <? 0x110000)%N && negb (is_surrogate c) = true) <-> is_Some (utf8_char c).
Proof.
  unfold utf8_char.
  destruct (is_surrogate c) eqn:Hs.
  - unfold is_surrogate in Hs. apply andb_prop in Hs as [H1 H2].
    apply N.leb_le in H1, H2.
    destruct (N.ltb_spec c 0x80); [lia|]. destruct (N.ltb_spec c 0x800); [lia|].
    rewrite andb_false_r. split; [discriminate | intros [x Hx]; discriminate].
  - rewrite andb_true_r.
    destruct (N.ltb_spec c 0x80); [destruct (N.ltb_spec c 0x110000); [|lia]; split; eauto|].
    destruct (N.ltb_spec c 0x800); [destruct (N.ltb_spec c 0x110000); [|lia]; split; eauto|].
    destruct (N.ltb_spec c 0x10000); [destruct (N.ltb_spec c 0x110000); [|lia]; split; eauto|].
    destruct (N.ltb_spec c 0x110000); split; eauto; try discriminate.
    intros [x Hx]; discriminate.
Qed.

Lemma utf8_encode_encodable (s : str) :
  encodable s = true -> exists bs, utf8_encode s = Ok bs.
Proof.
  induction s as [|c rest IH]; simpl; [eauto|].
  intros H. apply andb_prop in H as [Hc Hrest].
  apply utf8_char_encodable in Hc as [bs Hbs]. rewrite Hbs.
  destruct (IH Hrest) as [tl Htl]. rewrite Htl. simpl. eauto.
Qed.

Lemma utf8_encode_not_encodable (s : str) :
  encodable s = false ->
  exists c, c ∈ s /\ utf8_encode s = Raise (Exn UnicodeEncodeError [c]).
Proof.
  induction s as [|c rest IH]; simpl; [discriminate|].
  intros H. destruct (utf8_char c) as [bs|] eqn:Hbs.
  - assert (Hc : ((c <? 0x110000)%N && negb (is_surrogate c)) = true)
      by (apply utf8_char_encodable; rewrite Hbs; eauto).
    rewrite Hc in H. simpl in H.
    destruct (IH H) as (c' & Hin & Henc). exists c'. rewrite Henc.
    split; [apply elem_of_cons; auto | reflexivity].
  - exists c. split; [apply elem_of_cons; auto | reflexivity].
Qed.

Lemma quote_encodable (s : str) :
  encodable s = true -> exists q, quote s = Ok q.
Proof.
  intros H. destruct (utf8_encode_encodable s H) as [bs Hbs].
  unfold quote. destruct s; [eauto|]. rewrite Hbs. simpl. eauto.
Qed.

Lemma quote_not_encodable (s : str) :
  encodable s = false -> exists e, quote s = Raise e.
Proof.
  intros H. destruct (utf8_encode_not_encodable s H) as (c & _ & Hc).
  unfold quote. destruct s; [discriminate|]. rewrite Hc. simpl. eauto.
Qed.

Lemma encodable_app (a b : str) : encodable (a ++ b) = encodable a && encodable b.
Proof. apply forallb_app. Qed.

Lemma get_weather_image_unfold (location weather_desc : str) :
  get_weather_image location weather_desc =
  match quote (location ++ lit " cityscape, " ++ weather_desc
                 ++ lit ", professional photograph") with
  | Ok encoded_prompt =>
      ([], Ok (lit "https://image.pollinations.ai/prompt/" ++ encoded_prompt
                 ++ lit "?width=800&height=600&nologo=true"))
  | Raise e =>
      ([StError [Txt (lit "Error generating image URL: "); ExnStr e]],
       Ok placeholder_url)
  end.
Proof.
  unfold get_weather_image.
  destruct (quote _) as [q|e].
  - rewrite bind_lift_Ok. reflexivity.
  - rewrite bind_lift_Raise, try_except_Raise. reflexivity.
Qed.

(** The fallback is reachable: a string holding a lone surrogate, which
    [json.loads] produces from the escape [\ud800], makes the codec raise,
    and the placeholder is returned. *)
Lemma get_weather_image_returns_placeholder :
  get_weather_image [0xD800%N] (lit "Unknown")
  = ([StError [Txt (lit "Error generating image URL: ");
               ExnStr (Exn UnicodeEncodeError [0xD800%N])]],
     Ok placeholder_url).
Proof. vm_compute. reflexivity. Qed.

(** C10 (amended): the function always returns a URL and never raises;
    when both strings are free of surrogates it is the pollinations.ai URL
    built from the URL-encoded prompt and nothing is reported; when one of
    them holds a surrogate (or something that is not a code point) the
    encoding raises, the error is reported and the placeholder URL is
    returned. *)
Theorem get_weather_image_total (location weather_desc : str) :
  let prompt :=
    location ++ lit " cityscape, " ++ weather_desc ++ lit ", professional photograph" in
  (exists trace url, get_weather_image location weather_desc = (trace, Ok url)) /\
  (encodable location = true -> encodable weather_desc = true ->
   exists encoded_prompt,
     quote prompt = Ok encoded_prompt /\
     get_weather_image location weather_desc
     = ([], Ok (lit "https://image.pollinations.ai/prompt/" ++ encoded_prompt
                  ++ lit "?width=800&height=600&nologo=true"))) /\
  (encodable location = false \/ encodable weather_desc = false ->
   exists e,
     quote prompt = Raise e /\
     get_weather_image location weather_desc
     = ([StError [Txt (lit "Error generating image URL: "); ExnStr e]],
        Ok (lit "https://via.placeholder.com/800x600?text=Image+Not+Available"))).
Proof.
  intros prompt. rewrite get_weather_image_unfold. fold prompt.
  split; [|split].
  - destruct (quote prompt); eauto.
  - intros Hl Hd.
    destruct (quote_encodable prompt) as [q Hq].
    + unfold prompt. rewrite !encodable_app, Hl, Hd. reflexivity.
    + rewrite Hq. eauto.
  - intros H.
    destruct (quote_not_encodable prompt) as [e He].
    + unfold prompt. rewrite !encodable_app.
      destruct H as [-> | ->]; [reflexivity|].
      destruct (encodable location); reflexivity.
    + rewrite He. eauto.
Qed.

Lemma get_weather_image_total_witness :
  (exists encoded_prompt,
     quote (lit "Ladakh" ++ lit " cityscape, " ++ lit "Clear sky"
              ++ lit ", professional photograph") = Ok encoded_prompt /\
     get_weather_image (lit "Ladakh") (lit "Clear sky")
     = ([], Ok (lit "https://image.pollinations.ai/prompt/" ++ encoded_prompt
                  ++ lit "?width=800&height=600&nologo=true"))) /\
  (exists e, (get_weather_image [0xDFFF%N] (lit "Clear sky")).1
             = [StError [Txt (lit "Error generating image URL: "); ExnStr e]]).
Proof.
  split.
  - apply (get_weather_image_total (lit "Ladakh") (lit "Clear sky")); reflexivity.
  - destruct (get_weather_image_total [0xDFFF%N] (lit "Clear sky")) as (_ & _ & H).
    destruct H as (e & _ & He); [left; reflexivity|].
    exists e. rewrite He. reflexivity.
Defined.

(** ** The weather fetch *)

(** What the request, the status check and the decoding yield together. *)
Lemma fetch_weather_data_unfold network (lat lon : json) :
  fetch_weather_data network lat lon =
  let request := RequestsGet (weather_url lat lon) (Some 10) in
  match network (weather_url lat lon) (Some 10)
          ≫= (fun r => raise_for_status r ≫= fun _ => json_body r) with
  | Ok data => ([request], Ok data)
  | Raise e =>
      if is_Timeout e then
        ([request; StError [Txt (lit "Request timed out. Please try again.")]], Ok JNull)
      else if is_RequestException e then
        ([request; StError [Txt (lit "Error fetching weather data: "); ExnStr e]], Ok JNull)
      else if is_ValueError e then
        ([request; StError [Txt (lit "Error parsing weather data: "); ExnStr e]], Ok JNull)
      else ([request], Raise e)
  end.
Proof.
  unfold fetch_weather_data, requests_get.
  destruct (network _ _) as [r|e]; cbn [mbind M_bind result_bind].
  - destruct (raise_for_status r) as [[]|e]; cbn [lift mbind M_bind result_bind].
    + destruct (json_body r) as [data|e]; [reflexivity|].
      rewrite try_except_Raise.
      destruct (is_Timeout e), (is_RequestException e), (is_ValueError e); reflexivity.
    + rewrite try_except_Raise.
      destruct (is_Timeout e), (is_RequestException e), (is_ValueError e); reflexivity.
  - rewrite try_except_Raise.
    destruct (is_Timeout e), (is_RequestException e), (is_ValueError e); reflexivity.
Qed.

(** X26: the fetch issues one request, with a timeout of 10 seconds.  When
    the request, the status check or the decoding raises, the handlers are
    tried in their order: a timeout gets the timeout message, any other
    request exception the fetch message, and a value error that is not a
    request exception the parse message; each time no exception gets out
    and None is returned.  The card of a location without data renders
    nothing. *)
Theorem fetch_weather_data_failures network (lat lon : json) :
  let request := RequestsGet (weather_url lat lon) (Some 10) in
  (exists rest outcome,
     fetch_weather_data network lat lon = (request :: rest, outcome) /\
     Forall (fun ev => forall url timeout, ev <> RequestsGet url timeout) rest) /\
  (forall e,
     (network (weather_url lat lon) (Some 10) = Raise e \/
      exists r, network (weather_url lat lon) (Some 10) = Ok r /\
                (raise_for_status r = Raise e \/
                 raise_for_status r = Ok tt /\ json_body r = Raise e)) ->
     (is_Timeout e = true ->
      fetch_weather_data network lat lon
      = ([request; StError [Txt (lit "Request timed out. Please try again.")]],
         Ok JNull)) /\
     (is_Timeout e = false -> is_RequestException e = true ->
      fetch_weather_data network lat lon
      = ([request; StError [Txt (lit "Error fetching weather data: "); ExnStr e]],
         Ok JNull)) /\
     (is_RequestException e = false -> is_ValueError e = true ->
      fetch_weather_data network lat lon
      = ([request; StError [Txt (lit "Error parsing weather data: "); ExnStr e]],
         Ok JNull))) /\
  (forall location_name, weather_card location_name JNull = ([], Ok tt)).
Proof.
  intros request. rewrite fetch_weather_data_unfold. fold request.
  split; [|split].
  - destruct (_ ≫= _) as [data|e].
    + exists [], (Ok data). split; [reflexivity | constructor].
    + destruct (is_Timeout e), (is_RequestException e), (is_ValueError e);
        eexists; eexists; (split; [reflexivity|]);
        repeat constructor; discriminate.
  - intros e Hraised.
    assert (Hbody : network (weather_url lat lon) (Some 10)
                      ≫= (fun r => raise_for_status r ≫= fun _ => json_body r)
                    = Raise e).
    { destruct Hraised as [-> | (r & -> & [Hs | [Hs Hj]])]; [reflexivity| |];
        cbn [mbind result_bind]; rewrite Hs; [reflexivity|]. exact Hj. }
    rewrite Hbody. split; [|split].
    + intros ->. reflexivity.
    + intros -> ->. reflexivity.
    + intros Hr Hv.
      assert (Ht : is_Timeout e = false).
      { revert Hr. unfold is_Timeout, is_RequestException.
        destruct (exn_class_of e); congruence. }
      rewrite Ht, Hr, Hv. reflexivity.
  - reflexivity.
Qed.

Lemma fetch_weather_data_failures_witness :
  let lat := JFloat (binary64 34) in
  let lon := JFloat (binary64 77) in
  let request := RequestsGet (weather_url lat lon) (Some 10) in
  fetch_weather_data timing_out lat lon
  = ([request; StError [Txt (lit "Request timed out. Please try again.")]], Ok JNull) /\
  fetch_weather_data refusing lat lon
  = ([request;
      StError [Txt (lit "Error fetching weather data: ");
               ExnStr (Exn ConnectionError (lit "Connection refused"))]],
     Ok JNull) /\
  fetch_weather_data (garbled JSONDecodeError) lat lon
  = ([request;
      StError [Txt (lit "Error parsing weather data: ");
               ExnStr (Exn JSONDecodeError (lit "Expecting value"))]],
     Ok JNull).
Proof.
  intros lat lon request.
  split; [|split].
  - destruct (fetch_weather_data_failures timing_out lat lon) as (_ & H & _).
    apply (H (Exn ReadTimeout (lit "Read timed out."))); [left|]; reflexivity.
  - destruct (fetch_weather_data_failures refusing lat lon) as (_ & H & _).
    apply (H (Exn ConnectionError (lit "Connection refused"))); [left| |]; reflexivity.
  - destruct (fetch_weather_data_failures (garbled JSONDecodeError) lat lon)
      as (_ & H & _).
    apply (H (Exn JSONDecodeError (lit "Expecting value"))); [right| |]; try reflexivity.
    eexists. split; [reflexivity|]. right. split; reflexivity.
Defined.

(** C6 (code bug): a body that cannot be parsed is not reported as a parse
    error.  Since requests 2.27 [response.json()] raises a decode error
    that is a [RequestException] as well as a [ValueError].  The handler
    of request exceptions stands before the handler of value errors, so
    for a response with a good status and such a body the fetch reports
    "Error fetching weather data" and returns None, whatever the body was;
    the handler that says "Error parsing weather data" is not reached. *)
Theorem decode_error_is_reported_as_fetch_error (lat lon : json)
    (status : Z) (detail : str) :
  let e := Exn RequestsJSONDecodeError detail in
  let network := fun (_ : list frag) (_ : option Z) =>
                   Ok (Response status (Raise e)) in
  is_RequestException e = true /\
  is_ValueError e = true /\
  (raise_for_status (Response status (Raise e)) = Ok tt ->
   fetch_weather_data network lat lon
   = ([RequestsGet (weather_url lat lon) (Some 10);
       StError [Txt (lit "Error fetching weather data: "); ExnStr e]],
      Ok JNull)).
Proof.
  intros e network. split; [reflexivity|]. split; [reflexivity|].
  intros Hstatus. rewrite fetch_weather_data_unfold. unfold network.
  cbn [mbind result_bind]. rewrite Hstatus. reflexivity.
Qed.

Lemma decode_error_is_reported_as_fetch_error_witness :
  fetch_weather_data (garbled RequestsJSONDecodeError) (JInt 1) (JInt 2)
  = ([RequestsGet (weather_url (JInt 1) (JInt 2)) (Some 10);
      StError [Txt (lit "Error fetching weather data: ");
               ExnStr (Exn RequestsJSONDecodeError (lit "Expecting value"))]],
     Ok JNull).
Proof.
  apply (decode_error_is_reported_as_fetch_error (JInt 1) (JInt 2) 200
           (lit "Expecting value")).
  reflexivity.
Defined.

(** The same on any coordinates, by computation. *)
Example requests_decode_error_is_a_fetch_error (lat lon : json) :
  fetch_weather_data (garbled RequestsJSONDecodeError) lat lon
  = ([RequestsGet (weather_url lat lon) (Some 10);
      StError [Txt (lit "Error fetching weather data: ");
               ExnStr (Exn RequestsJSONDecodeError (lit "Expecting value"))]],
     Ok JNull).
Proof. reflexivity. Qed.

(** A status of 400 to 599 is a fetch error as well. *)
Example server_error_is_a_fetch_error (lat lon : json) :
  fetch_weather_data (fun _ _ => Ok (Response 503 (Ok JNull))) lat lon
  = ([RequestsGet (weather_url lat lon) (Some 10);
      StError [Txt (lit "Error fetching weather data: ");
               ExnStr (Exn HTTPError (lit "Client or Server Error"))]],
     Ok JNull).
Proof. reflexivity. Qed.

(** The card of a report of -15 degrees, wind 5 and code 71: slight snow,
    Critical, the extreme-cold message. *)
Example weather_card_slight_snow :
  weather_card (lit "Leh") snow_report
  = ([StColumns [2; 3];
      InColumn 1
        (StImage
           (lit "https://image.pollinations.ai/prompt/Leh%20cityscape%2C%20Slight%20snow%2C%20professional%20photograph?width=800&height=600&nologo=true")
           (lit "Leh") true);
      InColumn 2 (StMarkdown [Txt (lit "### "); Txt (lit "Leh")]);
      InColumn 2 (StMarkdown [Txt (lit "**Temperature:** "); Str (JInt (-15));
                              Txt (degree_sign :: lit "C")]);
      InColumn 2 (StMarkdown [Txt (lit "**Weather:** "); Txt (lit "Slight snow")]);
      InColumn 2 (StMarkdown [Txt (lit "**Humidity:** "); Str (JInt 40); Txt (lit "%")]);
      InColumn 2 (StMarkdown [Txt (lit "**Wind Speed:** "); Str (JInt 5);
                              Txt (lit " km/h")]);
      InColumn 2 (StMarkdown [Txt (lit "**Status:** "); Txt (red_circle :: lit " Critical")]);
      InColumn 2 (StMarkdown [Txt (lit "_");
                              Txt (lit "Extreme cold conditions - Exercise caution");
                              Txt (lit "_")])],
     Ok tt).
Proof. vm_compute. reflexivity. Qed.

(** ** The suggestion search *)

Lemma mapM_Ok {A B} (f : A -> result B) (g : A -> B) (l : list A) :
  Forall (fun x => f x = Ok (g x)) l -> mapM f l = Ok (g <$> l).
Proof.
  induction 1 as [|x l Hx _ IH]; [reflexivity|].
  cbn [mapM]. rewrite Hx. cbn [mbind result_bind].
  rewrite IH. reflexivity.
Qed.

Lemma optional_field_cases (v : json) :
  is_str v || negb (truthy v) = true -> (exists s, v = JStr s) \/ truthy v = false.
Proof.
  intros H. apply orb_prop in H as [H | H].
  - destruct v; try discriminate. eauto.
  - right. apply negb_true_iff. exact H.
Qed.

(** The name the loop builds from the fields that are present. *)
Lemma format_suggestion_well_formed (item : json) :
  well_formed_result item = true ->
  format_suggestion item = Ok (suggestion_of item).
Proof.
  unfold suggestion_of, well_formed_result, present.
  destruct item as [| | | | |fields]; try discriminate.
  unfold format_suggestion, has_key, field, subscript, py_get.
  intros H. repeat (apply andb_prop in H as [H ?]).
  destruct (fields !! lit "name") as [[| | |n| |]|]; try discriminate.
  destruct (fields !! lit "latitude") as [la|]; try discriminate.
  destruct (fields !! lit "longitude") as [lo|]; try discriminate.
  set (a := default JNull (fields !! lit "admin1")) in *.
  set (c := default JNull (fields !! lit "country")) in *.
  clearbody a c. cbn [mbind result_bind].
  destruct (optional_field_cases a) as [[sa ->] | Ha]; [assumption | |];
    (destruct (optional_field_cases c) as [[sc ->] | Hc]; [assumption | |]);
    rewrite ?Ha, ?Hc;
    repeat match goal with
           | |- context [truthy (JStr ?s)] => destruct (truthy (JStr s))
           end;
    reflexivity.
Qed.

(** The search without its plumbing: nothing is asked for a short query;
    otherwise one request is made, without a timeout, and whatever raises
    on the way is reported and answered by the empty list. *)
Lemma get_location_suggestions_unfold network (query : str) :
  get_location_suggestions network query =
  if (length query <? 2)%nat then ([], Ok []) else
  let request := RequestsGet (suggestions_url query) None in
  match network (suggestions_url query) None ≫= fun r =>
        raise_for_status r ≫= fun _ =>
        json_body r ≫= fun data =>
        py_get data (lit "results") ≫= fun found =>
        if negb (truthy found) then Ok [] else
        (subscript data (lit "results") ≫= py_iter) ≫= mapM format_suggestion
  with
  | Ok suggestions => ([request], Ok suggestions)
  | Raise e =>
      ([request; StError [Txt (lit "Error fetching suggestions: "); ExnStr e]], Ok [])
  end.
Proof.
  unfold get_location_suggestions, requests_get.
  destruct (length query <? 2)%nat; [reflexivity|].
  destruct (network _ _) as [r|e]; [|reflexivity].
  cbn [mbind M_bind result_bind lift].
  destruct (raise_for_status r) as [[]|e]; [|reflexivity].
  destruct (json_body r) as [data|e]; [|reflexivity].
  cbn [mbind result_bind].
  destruct (py_get data (lit "results")) as [found|e]; [|reflexivity].
  cbn [mbind result_bind].
  destruct (negb (truthy found)); [reflexivity|].
  destruct (subscript data (lit "results") ≫= py_iter) as [results|e]; [|reflexivity].
  cbn [mbind result_bind].
  destruct (mapM format_suggestion results); reflexivity.
Qed.

Lemma suggestions_of_results network (query : str) r fields (results : list json) :
  (2 <= length query)%nat ->
  network (suggestions_url query) None = Ok r ->
  raise_for_status r = Ok tt ->
  json_body r = Ok (JObj fields) ->
  fields !! lit "results" = Some (JArr results) ->
  results <> [] ->
  Forall (fun item => well_formed_result item = true) results ->
  get_location_suggestions network query
  = ([RequestsGet (suggestions_url query) None], Ok (suggestion_of <$> results)).
Proof.
  intros Hlen Hnet Hstatus Hbody Hres Hne Hwf.
  rewrite get_location_suggestions_unfold.
  destruct (Nat.ltb_spec (length query) 2) as [Hlt|_]; [lia|].
  cbv zeta. rewrite Hnet. cbn [mbind result_bind]. rewrite Hstatus, Hbody.
  cbn [mbind result_bind py_get subscript]. rewrite Hres. cbn [default].
  destruct results as [|item rest]; [congruence|].
  cbn [truthy length Nat.eqb negb py_iter mbind result_bind].
  rewrite (mapM_Ok format_suggestion suggestion_of).
  - reflexivity.
  - eapply Forall_impl; [exact Hwf|]. intros x Hx.
    apply format_suggestion_well_formed. exact Hx.
Qed.

(** A key that holds the empty string is skipped like a missing one. *)
Example empty_admin1_counts_as_absent :
  present nowhere (lit "admin1") = false /\
  format_suggestion nowhere
  = Ok {| name := lit "Nowhere, Utopia"; lat := JInt 1; lon := JInt 2 |}.
Proof. vm_compute. split; reflexivity. Qed.

(** C7: the search never raises.  It returns the empty list, asking
    nothing, for a query of fewer than 2 characters; the empty list when
    the response holds no results; and the empty list, after reporting
    the error, when the request, the status check or the decoding raises.
    Whenever an error is reported the list is empty. *)
Theorem no_suggestions_on_failure network (query : str) :
  let request := RequestsGet (suggestions_url query) None in
  (exists trace suggestions,
     get_location_suggestions network query = (trace, Ok suggestions)) /\
  ((length query < 2)%nat -> get_location_suggestions network query = ([], Ok [])) /\
  (forall r fields,
     (2 <= length query)%nat ->
     network (suggestions_url query) None = Ok r ->
     raise_for_status r = Ok tt ->
     json_body r = Ok (JObj fields) ->
     present (JObj fields) (lit "results") = false ->
     get_location_suggestions network query = ([request], Ok [])) /\
  (forall e,
     (2 <= length query)%nat ->
     (network (suggestions_url query) None = Raise e \/
      exists r, network (suggestions_url query) None = Ok r /\
                (raise_for_status r = Raise e \/
                 raise_for_status r = Ok tt /\ json_body r = Raise e)) ->
     get_location_suggestions network query
     = ([request; StError [Txt (lit "Error fetching suggestions: "); ExnStr e]],
        Ok [])) /\
  (forall trace suggestions e,
     get_location_suggestions network query = (trace, Ok suggestions) ->
     StError [Txt (lit "Error fetching suggestions: "); ExnStr e] ∈ trace ->
     suggestions = []).
Proof.
  intros request. rewrite get_location_suggestions_unfold. fold request.
  destruct (Nat.ltb_spec (length query) 2) as [Hlt|Hge].
  { split; [eauto|]. split; [reflexivity|]. split; [intros; lia|].
    split; [intros; lia|]. intros trace suggestions e [= <- <-] Hin.
    apply elem_of_nil in Hin. destruct Hin. }
  cbv zeta. split; [|split; [|split; [|split]]].
  - destruct (_ ≫= _); eauto.
  - intros Hlt. lia.
  - intros r fields _ Hnet Hstatus Hbody Hnone.
    rewrite Hnet. cbn [mbind result_bind]. rewrite Hstatus, Hbody.
    cbn [mbind result_bind py_get]. unfold present, field in Hnone.
    rewrite Hnone. reflexivity.
  - intros e _ Hraised.
    destruct Hraised as [-> | (r & -> & [Hs | [Hs Hj]])]; [reflexivity| |];
      cbn [mbind result_bind]; rewrite Hs; [reflexivity|].
    cbn [mbind result_bind]. rewrite Hj. reflexivity.
  - intros trace suggestions e. destruct (_ ≫= _) as [l|e'].
    + intros [= <- <-] Hin. apply list_elem_of_singleton in Hin. discriminate.
    + intros [= <- <-] _. reflexivity.
Qed.

Lemma no_suggestions_on_failure_witness :
  get_location_suggestions timing_out (lit "L") = ([], Ok []) /\
  get_location_suggestions (answering (obj [(lit "generationtime_ms", JInt 1)])) (lit "Zz")
  = ([RequestsGet (suggestions_url (lit "Zz")) None], Ok []) /\
  get_location_suggestions timing_out (lit "Le")
  = ([RequestsGet (suggestions_url (lit "Le")) None;
      StError [Txt (lit "Error fetching suggestions: ");
               ExnStr (Exn ReadTimeout (lit "Read timed out."))]],
     Ok []).
Proof.
  split; [|split].
  - apply (no_suggestions_on_failure timing_out (lit "L")). simpl. lia.
  - destruct (no_suggestions_on_failure
                (answering (obj [(lit "generationtime_ms", JInt 1)])) (lit "Zz"))
      as (_ & _ & H & _).
    eapply H; [simpl; lia | reflexivity | reflexivity | reflexivity |].
    vm_compute. reflexivity.
  - destruct (no_suggestions_on_failure timing_out (lit "Le")) as (_ & _ & _ & H & _).
    apply H; [simpl; lia|]. left. reflexivity.
Defined.

(** C8: on a successful response the list has one suggestion per result,
    in the order of the response, carrying the result's coordinates; when
    admin1 and country are both present the name is "Name, Admin1,
    Country". *)
Theorem suggestions_follow_upstream network (query : str) r fields
    (results : list json) :
  (2 <= length query)%nat ->
  network (suggestions_url query) None = Ok r ->
  raise_for_status r = Ok tt ->
  json_body r = Ok (JObj fields) ->
  fields !! lit "results" = Some (JArr results) ->
  results <> [] ->
  Forall (fun item => well_formed_result item = true) results ->
  exists suggestions,
    get_location_suggestions network query
    = ([RequestsGet (suggestions_url query) None], Ok suggestions) /\
    length suggestions = length results /\
    forall (i : nat) (item : json),
      results !! i = Some item ->
      exists s,
        suggestions !! i = Some s /\
        lat s = field item (lit "latitude") /\
        lon s = field item (lit "longitude") /\
        (present item (lit "admin1") = true ->
         present item (lit "country") = true ->
         name s = text (field item (lit "name")) ++ lit ", "
                    ++ text (field item (lit "admin1")) ++ lit ", "
                    ++ text (field item (lit "country"))).
Proof.
  intros Hlen Hnet Hstatus Hbody Hres Hne Hwf.
  exists (suggestion_of <$> results). split; [|split].
  - eapply suggestions_of_results; eassumption.
  - apply length_fmap.
  - intros i item Hi. exists (suggestion_of item).
    split; [rewrite list_lookup_fmap, Hi; reflexivity|].
    split; [reflexivity|]. split; [reflexivity|].
    intros Ha Hc. unfold suggestion_of; cbn [name]. rewrite Ha, Hc. reflexivity.
Qed.

Lemma suggestions_follow_upstream_witness :
  exists s,
    get_location_suggestions (answering (obj [(lit "results", JArr [leh])])) (lit "Le")
    = ([RequestsGet (suggestions_url (lit "Le")) None], Ok [s]) /\
    name s = lit "Leh, Ladakh, India".
Proof.
  destruct (suggestions_follow_upstream
              (answering (obj [(lit "results", JArr [leh])])) (lit "Le")
              (Response 200 (Ok (obj [(lit "results", JArr [leh])])))
              (list_to_map [(lit "results", JArr [leh])]) [leh])
    as (suggestions & Hrun & Hlen & Hitems);
    try (vm_compute; reflexivity).
  - discriminate.
  - repeat constructor.
  - destruct (Hitems 0%nat leh eq_refl) as (s & Hs & _ & _ & Hname).
    destruct suggestions as [|s0 [|s1 rest]]; try discriminate.
    injection Hs as ->. exists s. split; [exact Hrun|].
    rewrite Hname; vm_compute; reflexivity.
Defined.

(** C9: a result without admin1 but with country is named "Name,
    Country", one without either is named "Name", and one with admin1
    only "Name, Admin1": an absent field brings no separator and a present
    one is kept as it is. *)
Theorem absent_fields_leave_no_separator network (query : str) r fields
    (results : list json) :
  (2 <= length query)%nat ->
  network (suggestions_url query) None = Ok r ->
  raise_for_status r = Ok tt ->
  json_body r = Ok (JObj fields) ->
  fields !! lit "results" = Some (JArr results) ->
  results <> [] ->
  Forall (fun item => well_formed_result item = true) results ->
  exists suggestions,
    get_location_suggestions network query
    = ([RequestsGet (suggestions_url query) None], Ok suggestions) /\
    forall (i : nat) (item : json),
      results !! i = Some item ->
      exists s,
        suggestions !! i = Some s /\
        (present item (lit "admin1") = false ->
         present item (lit "country") = true ->
         name s = text (field item (lit "name")) ++ lit ", "
                    ++ text (field item (lit "country"))) /\
        (present item (lit "admin1") = false ->
         present item (lit "country") = false ->
         name s = text (field item (lit "name"))) /\
        (present item (lit "admin1") = true ->
         present item (lit "country") = false ->
         name s = text (field item (lit "name")) ++ lit ", "
                    ++ text (field item (lit "admin1"))).
Proof.
  intros Hlen Hnet Hstatus Hbody Hres Hne Hwf.
  exists (suggestion_of <$> results). split.
  - eapply suggestions_of_results; eassumption.
  - intros i item Hi. exists (suggestion_of item).
    split; [rewrite list_lookup_fmap, Hi; reflexivity|].
    unfold suggestion_of; cbn [name].
    split; [|split]; intros -> ->; reflexivity.
Qed.

Lemma absent_fields_leave_no_separator_witness :
  exists s1 s2,
    get_location_suggestions
      (answering (obj [(lit "results", JArr [monaco; atlantis])])) (lit "on")
    = ([RequestsGet (suggestions_url (lit "on")) None], Ok [s1; s2]) /\
    name s1 = lit "Monaco, Monaco" /\ name s2 = lit "Atlantis".
Proof.
  destruct (absent_fields_leave_no_separator
              (answering (obj [(lit "results", JArr [monaco; atlantis])])) (lit "on")
              (Response 200 (Ok (obj [(lit "results", JArr [monaco; atlantis])])))
              (list_to_map [(lit "results", JArr [monaco; atlantis])])
              [monaco; atlantis])
    as (suggestions & Hrun & Hitems);
    try (vm_compute; reflexivity).
  - discriminate.
  - repeat constructor.
  - destruct (Hitems 0%nat monaco eq_refl) as (s1 & Hs1 & Hname1 & _).
    destruct (Hitems 1%nat atlantis eq_refl) as (s2 & Hs2 & _ & Hname2 & _).
    assert (Hlen : length suggestions = 2%nat).
    { pose proof Hrun as Hrun'. vm_compute in Hrun'.
      injection Hrun' as <-. reflexivity. }
    destruct suggestions as [|t1 [|t2 [|t3 rest]]]; try discriminate.
    injection Hs1 as ->. injection Hs2 as ->. exists s1, s2.
    split; [exact Hrun|]. split.
    + rewrite Hname1; vm_compute; reflexivity.
    + rewrite Hname2; vm_compute; reflexivity.
Defined.

(** * Further properties *)

(** ** The classifier on arbitrary values *)

(** X1: an extreme temperature decides alone.  When the temperature is
    below -10 or above 40 the wind speed is never looked at, so the result
    is Critical with the temperature's message even when the wind speed is
    [None], a string or anything else. *)
Theorem extreme_temperature_ignores_wind (t : pynum) (wind_speed : json) :
  num_lt t (-10) || num_gt t 40 = true ->
  get_alert_status (JNum t) wind_speed = Ok critical_status /\
  get_alert_message (JNum t) wind_speed
  = Ok (if num_lt t (-10) then extreme_cold_message else extreme_heat_message).
Proof.
  unfold get_alert_status, get_alert_message, or_else, py_lt, py_gt.
  cbn [as_num mbind result_bind].
  destruct (num_lt t (-10)); [split; reflexivity|].
  destruct (num_gt t 40); [split; reflexivity|]. discriminate.
Qed.

Lemma extreme_temperature_ignores_wind_witness :
  get_alert_status (JFloat (binary64 45)) JNull = Ok critical_status /\
  get_alert_message (JFloat (binary64 45)) JNull = Ok extreme_heat_message.
Proof.
  apply (extreme_temperature_ignores_wind (PyFloat (binary64 45)) JNull). reflexivity.
Defined.

(** X2: on any two values the status and the message succeed together or
    raise together.  When they raise it is the same [TypeError]; when they
    return, the status is Critical, Warning or Normal exactly when the
    message is one of that tier. *)
Theorem status_and_message_fail_together (temp wind_speed : json) :
  match get_alert_status temp wind_speed, get_alert_message temp wind_speed with
  | Ok status, Ok message =>
      (status = critical_status <->
       In message [extreme_cold_message; extreme_heat_message; high_wind_message]) /\
      (status = warning_status <->
       In message [cold_message; hot_message; moderate_wind_message]) /\
      (status = normal_status <-> message = normal_message)
  | Raise e1, Raise e2 => e1 = e2 /\ exn_class_of e1 = TypeError
  | _, _ => False
  end.
Proof.
  unfold get_alert_status, get_alert_message, or_else, py_lt, py_gt.
  destruct (as_num temp) as [t|]; [|split; reflexivity].
  destruct (as_num wind_speed) as [w|]; cbn [mbind result_bind];
    destruct (num_lt t (-10)), (num_gt t 40); cbn [mbind result_bind];
    try (split; reflexivity);
    try (destruct (num_gt w 20), (num_lt t 0), (num_gt t 35), (num_gt w 15));
    vm_compute;
    (repeat split; try reflexivity; intros H;
      repeat match goal with
             | H : _ \/ _ |- _ => destruct H
             | H : False |- _ => destruct H
             end; try discriminate; auto 6).
Qed.

(** X3: the status raises exactly when the temperature is not a number, or
    when it is a number from -10 to 40 (or NaN) and the wind speed is not a
    number; a bool counts as a number. *)
Theorem alert_status_raises_exactly (temp wind_speed : json) :
  (exists e, get_alert_status temp wind_speed = Raise e) <->
  match as_num temp with
  | None => True
  | Some t => num_lt t (-10) || num_gt t 40 = false /\ as_num wind_speed = None
  end.
Proof.
  unfold get_alert_status, or_else, py_lt, py_gt.
  destruct (as_num temp) as [t|]; [|split; [tauto | intros _; eexists; reflexivity]].
  destruct (as_num wind_speed) as [w|]; cbn [mbind result_bind];
    destruct (num_lt t (-10)), (num_gt t 40); cbn [mbind result_bind orb].
  all: try (split; [intros [e He]; discriminate | intros [? ?]; discriminate]).
  - destruct (num_gt w 20), (num_lt t 0), (num_gt t 35), (num_gt w 15);
      cbn [mbind result_bind];
      (split; [intros [e He]; discriminate | intros [? ?]; discriminate]).
  - split; [intros _; split; reflexivity | intros _; eexists; reflexivity].
Qed.

(** ** The description of any value *)

Lemma fold_insert_lookup_inv {V} (items : list (Z * V)) (d : gmap Z V) (k : Z) (v : V) :
  fold_left (fun d item => <[item.1 := item.2]> d) items d !! k = Some v ->
  (k, v) ∈ items \/ d !! k = Some v.
Proof.
  revert d. induction items as [|[k' v'] rest IH]; intros d H; [right; exact H|].
  cbn [fold_left] in H. apply IH in H as [H | H].
  - left. apply elem_of_cons. right. exact H.
  - cbn [fst snd] in H. destruct (decide (k' = k)) as [-> | Hne].
    + rewrite lookup_insert_eq in H. injection H as ->.
      left. apply elem_of_cons. left. reflexivity.
    + rewrite lookup_insert_ne in H by exact Hne. right. exact H.
Qed.

Lemma WEATHER_CODES_lookup_Some (k : Z) (label : str) :
  WEATHER_CODES !! k = Some label -> (k, label) ∈ WEATHER_CODES_items.
Proof.
  unfold WEATHER_CODES. intros H. apply fold_insert_lookup_inv in H as [H | H].
  - exact H.
  - rewrite lookup_empty in H. discriminate.
Qed.

(** X4: whatever the value of the code, the description is a label of the
    table or "Unknown"; the only values on which the lookup raises are
    lists and dicts, which are unhashable, and then it is a [TypeError]. *)
Theorem weather_description_range (code : json) :
  match get_weather_description code with
  | Ok desc => desc ∈ WEATHER_CODES_items.*2 \/ desc = lit "Unknown"
  | Raise e =>
      exn_class_of e = TypeError /\
      ((exists items, code = JArr items) \/ (exists fields, code = JObj fields))
  end.
Proof.
  assert (Hopt : forall k : option Z,
             default (lit "Unknown") (k ≫= (WEATHER_CODES !!.))
               ∈ WEATHER_CODES_items.*2
             \/ default (lit "Unknown") (k ≫= (WEATHER_CODES !!.)) = lit "Unknown").
  { intros [z|]; [|right; reflexivity]. cbn [mbind option_bind].
    destruct (WEATHER_CODES !! z) as [label|] eqn:Hz; [|right; reflexivity].
    left. cbn [default]. apply WEATHER_CODES_lookup_Some in Hz.
    apply list_elem_of_fmap. exists (z, label). split; [reflexivity | exact Hz]. }
  unfold get_weather_description.
  destruct code as [|b|[z|f]|s|items|fields]; cbn [int_key mbind result_bind];
    try apply Hopt.
  - split; [reflexivity|]. left. eauto.
  - split; [reflexivity|]. right. eauto.
Qed.

Lemma WEATHER_CODES_float_keys :
  Forall (fun item => float_as_integer (binary64 item.1) = Some item.1)
         WEATHER_CODES_items.
Proof. apply (bool_decide_unpack _). vm_compute. reflexivity. Qed.

(** X5: a code of the table that arrives as a float, 71.0 for 71, gets the
    label of the integer. *)
Theorem weather_description_of_float_code (code : Z) (label : str) :
  (code, label) ∈ WEATHER_CODES_items ->
  get_weather_description (JFloat (binary64 code)) = Ok label.
Proof.
  intros Hin.
  pose proof (proj1 (Forall_forall _ _) WEATHER_CODES_float_keys _ Hin) as Hk.
  cbn [fst] in Hk.
  unfold get_weather_description, JFloat. cbn [int_key mbind result_bind].
  rewrite Hk. cbn [mbind option_bind]. unfold WEATHER_CODES.
  rewrite (display_lookup_item _ _ _ _ WEATHER_CODES_keys_distinct Hin).
  reflexivity.
Qed.

Lemma weather_description_of_float_code_witness :
  get_weather_description (JFloat (binary64 95)) = Ok (lit "Thunderstorm").
Proof.
  apply (weather_description_of_float_code 95 (lit "Thunderstorm")).
  apply (bool_decide_unpack _). vm_compute. reflexivity.
Defined.

(** ** Quoting *)

Lemma utf8_char_bytes (c : N) (bs : list N) :
  utf8_char c = Some bs -> Forall (fun b => (b < 256)%N) bs.
Proof.
  unfold utf8_char.
  destruct (N.ltb_spec c 0x80).
  { intros [= <-]. repeat constructor. lia. }
  destruct (N.ltb_spec c 0x800).
  { intros [= <-].
    pose proof (N.mod_upper_bound c 0x40).
    assert (c / 0x40 < 0x20)%N by (apply N.Div0.div_lt_upper_bound; lia).
    repeat constructor; lia. }
  destruct (is_surrogate c); [discriminate|].
  destruct (N.ltb_spec c 0x10000).
  { intros [= <-].
    pose proof (N.mod_upper_bound c 0x40).
    pose proof (N.mod_upper_bound (c / 0x40) 0x40).
    assert (c / 0x1000 < 0x10)%N by (apply N.Div0.div_lt_upper_bound; lia).
    repeat constructor; lia. }
  destruct (N.ltb_spec c 0x110000); [|discriminate].
  intros [= <-].
  pose proof (N.mod_upper_bound c 0x40).
  pose proof (N.mod_upper_bound (c / 0x40) 0x40).
  pose proof (N.mod_upper_bound (c / 0x1000) 0x40).
  assert (c / 0x40000 < 0x8)%N by (apply N.Div0.div_lt_upper_bound; lia).
  repeat constructor; lia.
Qed.

Lemma utf8_encode_bytes (s : str) (bs : list N) :
  utf8_encode s = Ok bs -> Forall (fun b => (b < 256)%N) bs.
Proof.
  revert bs. induction s as [|c rest IH]; intros bs; cbn [utf8_encode].
  - intros [= <-]. constructor.
  - destruct (utf8_char c) as [hd|] eqn:Hc; [|discriminate].
    destruct (utf8_encode rest) as [tl|]; [|discriminate].
    cbn [mbind result_bind]. intros [= <-].
    apply Forall_app. split; [eapply utf8_char_bytes; exact Hc | apply IH; reflexivity].
Qed.

Lemma quoter_quoted (b : N) :
  (b < 256)%N -> forallb quoted_char (quoter b) = true.
Proof.
  intros Hb.
  assert (Hall : forallb (fun b => forallb quoted_char (quoter b))
                   (List.map N.of_nat (seq 0 256)) = true)
    by (vm_compute; reflexivity).
  rewrite forallb_forall in Hall. apply Hall.
  rewrite <- (N2Nat.id b). apply in_map. apply in_seq. lia.
Qed.

(** X6: a quoted string holds only letters, digits, [_ . - ~ /] and the
    [%] of its escapes: no space, [?], [&] or [#] survives. *)
Theorem quote_writes_only_url_characters (s q : str) :
  quote s = Ok q -> forallb quoted_char q = true.
Proof.
  unfold quote. destruct s as [|c rest]; [intros [= <-]; reflexivity|].
  destruct (utf8_encode (c :: rest)) as [bs|] eqn:Hbs; [|discriminate].
  cbn [mbind result_bind]. intros [= <-].
  apply utf8_encode_bytes in Hbs.
  induction Hbs as [|b bs Hb _ IH]; [reflexivity|].
  cbn [List.map concat]. rewrite forallb_app, IH, (quoter_quoted b Hb). reflexivity.
Qed.

Lemma quote_writes_only_url_characters_witness :
  forallb quoted_char
    (lit "Leh%20cityscape%2C%20Slight%20snow%2C%20professional%20photograph") = true.
Proof.
  apply (quote_writes_only_url_characters
           (lit "Leh cityscape, Slight snow, professional photograph")).
  vm_compute. reflexivity.
Defined.

(** X7: a string made only of characters that need no escape is returned
    unchanged. *)
Theorem quote_keeps_safe_strings (s : str) :
  forallb kept_by_quote s = true -> quote s = Ok s.
Proof.
  intros Hs.
  assert (Henc : utf8_encode s = Ok s /\ concat (List.map quoter s) = s).
  { induction s as [|c rest IH]; [split; reflexivity|].
    cbn [forallb] in Hs. apply andb_prop in Hs as [Hc Hrest].
    destruct (IH Hrest) as [IH1 IH2].
    assert (Hlt : (c < 0x80)%N).
    { unfold kept_by_quote, always_safe in Hc.
      rewrite !orb_true_iff, !andb_true_iff, !N.leb_le, !N.eqb_eq in Hc. lia. }
    cbn [utf8_encode]. unfold utf8_char.
    destruct (N.ltb_spec c 0x80) as [_|]; [|lia].
    rewrite IH1. cbn [mbind result_bind List.map concat].
    unfold quoter at 1. fold (kept_by_quote c). rewrite Hc, IH2.
    split; reflexivity. }
  destruct Henc as [H1 H2].
  unfold quote. destruct s; [reflexivity|]. rewrite H1. cbn [mbind result_bind].
  rewrite H2. reflexivity.
Qed.

Lemma quote_keeps_safe_strings_witness :
  quote (lit "Arunachal_Pradesh/2024-01.txt~") = Ok (lit "Arunachal_Pradesh/2024-01.txt~").
Proof. apply quote_keeps_safe_strings. vm_compute. reflexivity. Defined.

(** X8: the image URL is the placeholder or the fixed prefix, a quoted
    prompt and the fixed query string; as the quoted prompt holds no [?],
    [&] or [#], the location cannot change the query string. *)
Theorem get_weather_image_url_shape (location weather_desc : str) :
  exists url,
    (get_weather_image location weather_desc).2 = Ok url /\
    (url = placeholder_url \/
     exists encoded_prompt,
       url = lit "https://image.pollinations.ai/prompt/" ++ encoded_prompt
               ++ lit "?width=800&height=600&nologo=true" /\
       forallb quoted_char encoded_prompt = true /\
       quoted_char 0x3F = false /\ quoted_char 0x26 = false /\
       quoted_char 0x23 = false /\ quoted_char 0x20 = false).
Proof.
  rewrite get_weather_image_unfold.
  destruct (quote _) as [q|e] eqn:Hq.
  - eexists. split; [reflexivity|]. right. exists q.
    split; [reflexivity|]. split; [eapply quote_writes_only_url_characters; exact Hq|].
    repeat split; reflexivity.
  - eexists. split; [reflexivity|]. left. reflexivity.
Qed.

(** ** The weather card *)

Lemma get_weather_image_returns (location weather_desc : str) :
  exists trace url, get_weather_image location weather_desc = (trace, Ok url).
Proof.
  rewrite get_weather_image_unfold. destruct (quote _); eauto.
Qed.

(** The card once its five lookups have succeeded. *)
Lemma weather_card_readings (location_name : str) (weather_data current : json)
    (temp humidity wind_speed weather_code : json) (weather_desc : str) :
  truthy weather_data = true ->
  subscript weather_data (lit "current") = Ok current ->
  subscript current (lit "temperature_2m") = Ok temp ->
  subscript current (lit "relative_humidity_2m") = Ok humidity ->
  subscript current (lit "wind_speed_10m") = Ok wind_speed ->
  subscript current (lit "weather_code") = Ok weather_code ->
  get_weather_description weather_code = Ok weather_desc ->
  weather_card location_name weather_data =
  let head := card_head location_name temp humidity wind_speed weather_desc in
  match get_alert_status temp wind_speed with
  | Raise e => (head, Raise e)
  | Ok status =>
      match get_alert_message temp wind_speed with
      | Raise e => (head ++ [status_line status.1], Raise e)
      | Ok message => (head ++ [status_line status.1; message_line message], Ok tt)
      end
  end.
Proof.
  intros Ht Hcur Htemp Hhum Hwind Hcode Hdesc.
  unfold weather_card, card_head. rewrite Ht.
  rewrite Hcur, bind_lift_Ok; cbv beta.
  rewrite Htemp, bind_lift_Ok; cbv beta.
  rewrite Hhum, bind_lift_Ok; cbv beta.
  rewrite Hwind, bind_lift_Ok; cbv beta.
  rewrite Hcode, bind_lift_Ok; cbv beta.
  rewrite Hdesc, bind_lift_Ok; cbv beta.
  destruct (get_weather_image_returns location_name weather_desc) as (t & url & ->).
  destruct (get_alert_status temp wind_speed) as [status|e];
    [destruct (get_alert_message temp wind_speed) as [message|e]|];
    unfold status_line, message_line, emit, lift, with_column, mbind, M_bind;
    cbn [fst snd app List.map]; rewrite ?app_nil_r;
    rewrite ?fmap_app, <- ?app_assoc; reflexivity.
Qed.

Lemma weather_card_lookup_fails (location_name : str) (weather_data : json) (e : exn) :
  truthy weather_data = true ->
  (subscript weather_data (lit "current") ≫= fun current =>
   subscript current (lit "temperature_2m") ≫= fun _ =>
   subscript current (lit "relative_humidity_2m") ≫= fun _ =>
   subscript current (lit "wind_speed_10m") ≫= fun _ =>
   subscript current (lit "weather_code") ≫= get_weather_description) = Raise e ->
  weather_card location_name weather_data = ([], Raise e).
Proof.
  intros Ht. unfold weather_card. rewrite Ht.
  destruct (subscript weather_data (lit "current")) as [current|e0];
    cbn [mbind result_bind]; [rewrite bind_lift_Ok; cbv beta|intros [= ->]; reflexivity].
  destruct (subscript current (lit "temperature_2m")) as [temp|e0];
    cbn [mbind result_bind]; [rewrite bind_lift_Ok; cbv beta|intros [= ->]; reflexivity].
  destruct (subscript current (lit "relative_humidity_2m")) as [humidity|e0];
    cbn [mbind result_bind]; [rewrite bind_lift_Ok; cbv beta|intros [= ->]; reflexivity].
  destruct (subscript current (lit "wind_speed_10m")) as [wind_speed|e0];
    cbn [mbind result_bind]; [rewrite bind_lift_Ok; cbv beta|intros [= ->]; reflexivity].
  destruct (subscript current (lit "weather_code")) as [weather_code|e0];
    cbn [mbind result_bind]; [rewrite bind_lift_Ok; cbv beta|intros [= ->]; reflexivity].
  intros ->. reflexivity.
Qed.

(** X9: the card draws nothing and returns exactly when the data is false
    in an [if]: [None], an empty dict or list, zero, an empty string. *)
Theorem weather_card_empty_iff_no_data (location_name : str) (weather_data : json) :
  weather_card location_name weather_data = ([], Ok tt) <-> truthy weather_data = false.
Proof.
  split.
  - destruct (truthy weather_data) eqn:Ht; [|reflexivity].
    destruct (subscript weather_data (lit "current") ≫= fun current =>
              subscript current (lit "temperature_2m") ≫= fun _ =>
              subscript current (lit "relative_humidity_2m") ≫= fun _ =>
              subscript current (lit "wind_speed_10m") ≫= fun _ =>
              subscript current (lit "weather_code") ≫= get_weather_description)
      as [desc|e] eqn:Hlook.
    + destruct (subscript weather_data (lit "current")) as [current|] eqn:H0;
        [|discriminate]; cbn [mbind result_bind] in Hlook.
      destruct (subscript current (lit "temperature_2m")) as [temp|] eqn:H1;
        [|discriminate]; cbn [mbind result_bind] in Hlook.
      destruct (subscript current (lit "relative_humidity_2m")) as [humidity|] eqn:H2;
        [|discriminate]; cbn [mbind result_bind] in Hlook.
      destruct (subscript current (lit "wind_speed_10m")) as [wind_speed|] eqn:H3;
        [|discriminate]; cbn [mbind result_bind] in Hlook.
      destruct (subscript current (lit "weather_code")) as [weather_code|] eqn:H4;
        [|discriminate]; cbn [mbind result_bind] in Hlook.
      rewrite (weather_card_readings _ _ _ _ _ _ _ _ Ht H0 H1 H2 H3 H4 Hlook).
      cbv zeta. unfold card_head.
      destruct (get_alert_status temp wind_speed);
        [destruct (get_alert_message temp wind_speed)|]; discriminate.
    + rewrite (weather_card_lookup_fails _ _ e Ht Hlook). discriminate.
  - intros Hf. unfold weather_card. rewrite Hf. reflexivity.
Qed.



Lemma weather_card_of_readings (location_name : str) (weather_data : json)
    (temp humidity wind_speed weather_code : json) (weather_desc : str) :
  truthy weather_data = true ->
  readings_of weather_data = Ok (temp, humidity, wind_speed, weather_code) ->
  get_weather_description weather_code = Ok weather_desc ->
  weather_card location_name weather_data =
  let head := card_head location_name temp humidity wind_speed weather_desc in
  match get_alert_status temp wind_speed with
  | Raise e => (head, Raise e)
  | Ok status =>
      match get_alert_message temp wind_speed with
      | Raise e => (head ++ [status_line status.1], Raise e)
      | Ok message => (head ++ [status_line status.1; message_line message], Ok tt)
      end
  end.
Proof.
  intros Ht Hread Hdesc. unfold readings_of in Hread.
  destruct (subscript weather_data (lit "current")) as [current|] eqn:H0;
    [|discriminate]; cbn [mbind result_bind] in Hread.
  destruct (subscript current (lit "temperature_2m")) as [v1|] eqn:H1;
    [|discriminate]; cbn [mbind result_bind] in Hread.
  destruct (subscript current (lit "relative_humidity_2m")) as [v2|] eqn:H2;
    [|discriminate]; cbn [mbind result_bind] in Hread.
  destruct (subscript current (lit "wind_speed_10m")) as [v3|] eqn:H3;
    [|discriminate]; cbn [mbind result_bind] in Hread.
  destruct (subscript current (lit "weather_code")) as [v4|] eqn:H4;
    [|discriminate]; cbn [mbind result_bind] in Hread.
  injection Hread as -> -> -> ->.
  eapply weather_card_readings; eassumption.
Qed.

(** X11: a report whose temperature is not a number ([null] for a station
    that is down) gets half a card: the columns, the image and the four
    readings are drawn, then the status raises [TypeError] and neither the
    status nor the advice is shown. *)
Theorem weather_card_without_temperature (location_name : str) (weather_data : json)
    (temp humidity wind_speed weather_code : json) (weather_desc : str) :
  truthy weather_data = true ->
  readings_of weather_data = Ok (temp, humidity, wind_speed, weather_code) ->
  get_weather_description weather_code = Ok weather_desc ->
  as_num temp = None ->
  exists e,
    exn_class_of e = TypeError /\
    weather_card location_name weather_data
    = (card_head location_name temp humidity wind_speed weather_desc, Raise e).
Proof.
  intros Ht Hread Hdesc Hnum.
  rewrite (weather_card_of_readings _ _ _ _ _ _ _ Ht Hread Hdesc). cbv zeta.
  unfold get_alert_status, or_else, py_lt. rewrite Hnum. cbn [mbind result_bind].
  eexists. split; [|reflexivity]. reflexivity.
Qed.

Lemma weather_card_without_temperature_witness :
  exists e,
    exn_class_of e = TypeError /\
    weather_card (lit "Leh") silent_report
    = (card_head (lit "Leh") JNull (JInt 40) (JInt 5) (lit "Overcast"), Raise e).
Proof.
  apply (weather_card_without_temperature (lit "Leh") silent_report
           JNull (JInt 40) (JInt 5) (JInt 3) (lit "Overcast"));
    vm_compute; reflexivity.
Defined.

(** X12: for a report with numeric temperature and wind the card is whole:
    after the readings it shows the label of the tier of the first rule
    that matches, then that rule's message, and returns. *)
Theorem weather_card_shows_first_matching_rule (location_name : str)
    (weather_data : json) (t w : pynum) (humidity weather_code : json)
    (weather_desc : str) :
  truthy weather_data = true ->
  readings_of weather_data = Ok (JNum t, humidity, JNum w, weather_code) ->
  get_weather_description weather_code = Ok weather_desc ->
  weather_card location_name weather_data
  = (card_head location_name (JNum t) humidity (JNum w) weather_desc
       ++ [status_line (tier_visual (rule_tier (first_match t w))).1;
           message_line (rule_message (first_match t w))],
     Ok tt).
Proof.
  intros Ht Hread Hdesc.
  rewrite (weather_card_of_readings _ _ _ _ _ _ _ Ht Hread Hdesc). cbv zeta.
  rewrite get_alert_status_num, get_alert_message_num. unfold first_match.
  destruct (num_lt t (-10)), (num_gt t 40), (num_gt w 20),
    (num_lt t 0), (num_gt t 35), (num_gt w 15); reflexivity.
Qed.

Lemma weather_card_shows_first_matching_rule_witness :
  weather_card (lit "Leh") snow_report
  = (card_head (lit "Leh") (JInt (-15)) (JInt 40) (JInt 5) (lit "Slight snow")
       ++ [status_line (red_circle :: lit " Critical");
           message_line (lit "Extreme cold conditions - Exercise caution")],
     Ok tt).
Proof.
  apply (weather_card_shows_first_matching_rule (lit "Leh") snow_report
           (PyInt (-15)) (PyInt 5) (JInt 40) (JInt 71) (lit "Slight snow"));
    vm_compute; reflexivity.
Defined.

Lemma WEATHER_CODES_labels_encodable (code : Z) (label : str) :
  (code, label) ∈ WEATHER_CODES_items -> encodable label = true.
Proof.
  assert (Hall : forallb (fun item : Z * str => encodable item.2) WEATHER_CODES_items
                 = true) by (vm_compute; reflexivity).
  rewrite forallb_forall in Hall. intros Hin.
  apply (Hall (code, label)). apply list_elem_of_In. exact Hin.
Qed.

Lemma Ok_inj {A} (a b : A) : Ok a = Ok b -> a = b.
Proof. intros H. injection H. auto. Qed.

Lemma Raise_not_Ok {A} (e : exn) (a : A) : Raise e = Ok a -> False.
Proof. discriminate. Qed.

Lemma get_weather_description_encodable (code : json) (desc : str) :
  get_weather_description code = Ok desc -> encodable desc = true.
Proof.
  assert (Hopt : forall k : option Z,
             encodable (default (lit "Unknown") (k ≫= (WEATHER_CODES !!.))) = true).
  { intros [z|]; [|reflexivity]. cbn [mbind option_bind].
    destruct (WEATHER_CODES !! z) as [label|] eqn:Hz; [|reflexivity].
    apply WEATHER_CODES_lookup_Some in Hz.
    exact (WEATHER_CODES_labels_encodable _ _ Hz). }
  unfold get_weather_description.
  destruct code as [|b|[z|f]|s|items|fields]; cbn [int_key mbind result_bind];
    intros H; try (exfalso; exact (Raise_not_Ok _ _ H));
    apply Ok_inj in H; subst desc; apply Hopt.
Qed.

(** X13: with a description that comes from the table, the image URL is the
    placeholder exactly when the location name cannot be encoded; for any
    other name building the URL reports nothing. *)
Theorem card_image_fails_only_on_name (location_name : str) (weather_code : json)
    (weather_desc : str) :
  get_weather_description weather_code = Ok weather_desc ->
  ((get_weather_image location_name weather_desc).2 = Ok placeholder_url
   <-> encodable location_name = false) /\
  (encodable location_name = true ->
   (get_weather_image location_name weather_desc).1 = []).
Proof.
  intros Hdesc. apply get_weather_description_encodable in Hdesc.
  rewrite get_weather_image_unfold.
  destruct (encodable location_name) eqn:Hname.
  - destruct (quote_encodable
                (location_name ++ lit " cityscape, " ++ weather_desc
                   ++ lit ", professional photograph")) as [q Hq].
    { rewrite !encodable_app, Hname, Hdesc. reflexivity. }
    rewrite Hq. split; [|reflexivity]. split; [|discriminate].
    cbn [snd]. intros [= H].
  - destruct (quote_not_encodable
                (location_name ++ lit " cityscape, " ++ weather_desc
                   ++ lit ", professional photograph")) as [e He].
    { rewrite !encodable_app, Hname. reflexivity. }
    rewrite He. split; [|discriminate]. split; reflexivity.
Qed.

Lemma card_image_fails_only_on_name_witness :
  (get_weather_image (lit "Sikkim") (lit "Foggy")).1 = [].
Proof.
  apply (card_image_fails_only_on_name (lit "Sikkim") (JInt 45) (lit "Foggy"));
    vm_compute; reflexivity.
Defined.

(** ** The fetch beyond its three handlers *)

(** X14: a response that decodes to something false in an [if] ([null],
    [{}], [[]], [0]) is returned by the fetch as it is, with no message,
    and the card called on it draws nothing. *)
Theorem empty_report_is_returned_and_draws_no_card network (lat lon : json) r
    (data : json) (location_name : str) :
  network (weather_url lat lon) (Some 10) = Ok r ->
  raise_for_status r = Ok tt ->
  json_body r = Ok data ->
  truthy data = false ->
  fetch_weather_data network lat lon
  = ([RequestsGet (weather_url lat lon) (Some 10)], Ok data) /\
  weather_card location_name data = ([], Ok tt).
Proof.
  intros Hnet Hstatus Hbody Hfalse. split.
  - rewrite fetch_weather_data_unfold, Hnet. cbn [mbind result_bind].
    rewrite Hstatus. cbn [mbind result_bind]. rewrite Hbody. reflexivity.
  - unfold weather_card. rewrite Hfalse. reflexivity.
Qed.

Lemma empty_report_is_returned_and_draws_no_card_witness :
  fetch_weather_data (answering (obj [])) (JInt 1) (JInt 2)
  = ([RequestsGet (weather_url (JInt 1) (JInt 2)) (Some 10)], Ok (obj [])) /\
  weather_card (lit "Leh") (obj []) = ([], Ok tt).
Proof.
  apply (empty_report_is_returned_and_draws_no_card
           (answering (obj [])) (JInt 1) (JInt 2)
           (Response 200 (Ok (obj []))) (obj []) (lit "Leh"));
    vm_compute; reflexivity.
Defined.

(** X15: the fetch catches nothing but request errors and value errors: an
    exception of any other class raised by the request or the decoding
    leaves the function, with no message. *)
Theorem fetch_weather_data_lets_other_errors_out network (lat lon : json) (e : exn) :
  (network (weather_url lat lon) (Some 10) = Raise e \/
   exists r, network (weather_url lat lon) (Some 10) = Ok r /\
             raise_for_status r = Ok tt /\ json_body r = Raise e) ->
  is_RequestException e = false ->
  is_ValueError e = false ->
  fetch_weather_data network lat lon
  = ([RequestsGet (weather_url lat lon) (Some 10)], Raise e).
Proof.
  intros Hraised Hr Hv. rewrite fetch_weather_data_unfold.
  assert (Ht : is_Timeout e = false).
  { revert Hr. unfold is_Timeout, is_RequestException.
    destruct (exn_class_of e); congruence. }
  destruct Hraised as [-> | (r & -> & Hs & Hj)]; cbn [mbind result_bind].
  - rewrite Ht, Hr, Hv. reflexivity.
  - rewrite Hs. cbn [mbind result_bind]. rewrite Hj, Ht, Hr, Hv. reflexivity.
Qed.

Lemma fetch_weather_data_lets_other_errors_out_witness :
  fetch_weather_data (garbled KeyError) (JInt 1) (JInt 2)
  = ([RequestsGet (weather_url (JInt 1) (JInt 2)) (Some 10)],
     Raise (Exn KeyError (lit "Expecting value"))).
Proof.
  apply (fetch_weather_data_lets_other_errors_out (garbled KeyError) (JInt 1) (JInt 2));
    [right; eexists; repeat split; reflexivity | reflexivity | reflexivity].
Defined.

(** ** The search on damaged results *)

Lemma mapM_Raise {A B} (f : A -> result B) (good : list A) (bad : A) (rest : list A)
    (e : exn) :
  Forall (fun x => exists y, f x = Ok y) good ->
  f bad = Raise e ->
  mapM f (good ++ bad :: rest) = Raise e.
Proof.
  intros Hgood Hbad. induction Hgood as [|x l [y Hy] _ IH].
  - cbn [app mapM]. rewrite Hbad. reflexivity.
  - cbn [app mapM]. rewrite Hy. cbn [mbind result_bind]. rewrite IH. reflexivity.
Qed.

(** X16: one damaged result spoils the list.  If any result of the
    response cannot be formatted (it has no name, no coordinates, or a
    field that is not a string), the suggestions made of the results
    before it are dropped: the error is reported and the list is empty. *)
Theorem one_bad_result_empties_suggestions network (query : str) r fields
    (good : list json) (bad : json) (rest : list json) (e : exn) :
  (2 <= length query)%nat ->
  network (suggestions_url query) None = Ok r ->
  raise_for_status r = Ok tt ->
  json_body r = Ok (JObj fields) ->
  fields !! lit "results" = Some (JArr (good ++ bad :: rest)) ->
  Forall (fun item => well_formed_result item = true) good ->
  format_suggestion bad = Raise e ->
  get_location_suggestions network query
  = ([RequestsGet (suggestions_url query) None;
      StError [Txt (lit "Error fetching suggestions: "); ExnStr e]],
     Ok []).
Proof.
  intros Hlen Hnet Hstatus Hbody Hres Hgood Hbad.
  rewrite get_location_suggestions_unfold.
  destruct (Nat.ltb_spec (length query) 2) as [Hlt|_]; [lia|].
  cbv zeta. rewrite Hnet. cbn [mbind result_bind]. rewrite Hstatus, Hbody.
  cbn [mbind result_bind py_get subscript]. rewrite Hres. cbn [default].
  assert (Htruthy : truthy (JArr (good ++ bad :: rest)) = true).
  { cbn [truthy]. rewrite length_app. cbn [length].
    destruct (length good + S (length rest))%nat eqn:Hn; [lia | reflexivity]. }
  cbn [mbind result_bind]. unfold id. rewrite Htruthy.
  cbn [negb py_iter mbind result_bind].
  rewrite (mapM_Raise format_suggestion good bad rest e); [reflexivity| |exact Hbad].
  eapply Forall_impl; [exact Hgood|]. intros x Hx.
  exists (suggestion_of x). apply format_suggestion_well_formed. exact Hx.
Qed.

Lemma one_bad_result_empties_suggestions_witness :
  get_location_suggestions
    (answering (obj [(lit "results", JArr [leh; obj [(lit "latitude", JInt 1)]; monaco])]))
    (lit "Le")
  = ([RequestsGet (suggestions_url (lit "Le")) None;
      StError [Txt (lit "Error fetching suggestions: ");
               ExnStr (Exn KeyError (lit "name"))]],
     Ok []).
Proof.
  apply (one_bad_result_empties_suggestions _ (lit "Le")
           (Response 200 (Ok (obj [(lit "results",
              JArr [leh; obj [(lit "latitude", JInt 1)]; monaco])])))
           (list_to_map [(lit "results",
              JArr [leh; obj [(lit "latitude", JInt 1)]; monaco])])
           [leh] (obj [(lit "latitude", JInt 1)]) [monaco]);
    try (vm_compute; reflexivity).
  repeat constructor.
Defined.

(** X17: a search makes at most one request, never with a timeout, and
    never asks again after a failure. *)
Theorem suggestions_ask_at_most_once network (query : str) :
  let trace := (get_location_suggestions network query).1 in
  trace = [] \/
  exists rest,
    trace = RequestsGet (suggestions_url query) None :: rest /\
    Forall (fun ev => forall url timeout, ev <> RequestsGet url timeout) rest.
Proof.
  cbv zeta. rewrite get_location_suggestions_unfold.
  destruct (length query <? 2)%nat; [left; reflexivity|]. right.
  cbv zeta. destruct (_ ≫= _) as [l|e]; eexists; (split; [reflexivity|]).
  - constructor.
  - repeat constructor. discriminate.
Qed.

(** ** The page *)

(** The coordinates of the preset locations are the doubles Python reads
    from the decimals of the source. *)
Example DEFAULT_LOCATIONS_doubles :
  List.map (fun location => (lat location, lon location)) DEFAULT_LOCATIONS
  = [(JFloat (S754_finite false 4806551144804175 (-47)),
      JFloat (S754_finite false 5459003103945058 (-46)));
     (JFloat (S754_finite false 7942660892821291 (-48)),
      JFloat (S754_finite false 6665876324712920 (-46)));
     (JFloat (S754_finite false 7695216240794953 (-48)),
      JFloat (S754_finite false 6235128130978185 (-46)));
     (JFloat (S754_finite false 4796854331856493 (-47)),
      JFloat (S754_finite false 5263392068879988 (-46)))].
Proof. vm_compute. reflexivity. Qed.

(** ** Requests of a page *)

Lemma page_requests_app (a b : list page_event) :
  page_requests (a ++ b) = page_requests a ++ page_requests b.
Proof. unfold page_requests. rewrite map_app, concat_app. reflexivity. Qed.

Lemma page_requests_within (c : container) (t : list page_event) :
  page_requests (Within c <$> t) = page_requests t.
Proof.
  unfold page_requests. induction t as [|e t IH]; [reflexivity|].
  cbn [fmap list_fmap List.map concat page_request]. cbn [fmap list_fmap] in IH.
  rewrite IH. reflexivity.
Qed.

Lemma page_requests_draw (t : list event) :
  page_requests (Draw <$> t) = concat (List.map event_request t).
Proof.
  unfold page_requests. induction t as [|e t IH]; [reflexivity|].
  cbn [fmap list_fmap List.map concat page_request]. cbn [fmap list_fmap] in IH.
  rewrite IH. reflexivity.
Qed.

(** A card asks the network nothing. *)
Lemma weather_card_no_requests (location_name : str) (weather_data : json) :
  concat (List.map event_request (weather_card location_name weather_data).1) = [].
Proof.
  destruct (truthy weather_data) eqn:Ht;
    [|unfold weather_card; rewrite Ht; reflexivity].
  destruct (subscript weather_data (lit "current") ≫= fun current =>
            subscript current (lit "temperature_2m") ≫= fun _ =>
            subscript current (lit "relative_humidity_2m") ≫= fun _ =>
            subscript current (lit "wind_speed_10m") ≫= fun _ =>
            subscript current (lit "weather_code") ≫= get_weather_description)
    as [desc|e] eqn:Hlook;
    [|rewrite (weather_card_lookup_fails _ _ e Ht Hlook); reflexivity].
  destruct (subscript weather_data (lit "current")) as [current|] eqn:H0;
    [|discriminate]; cbn [mbind result_bind] in Hlook.
  destruct (subscript current (lit "temperature_2m")) as [temp|] eqn:H1;
    [|discriminate]; cbn [mbind result_bind] in Hlook.
  destruct (subscript current (lit "relative_humidity_2m")) as [humidity|] eqn:H2;
    [|discriminate]; cbn [mbind result_bind] in Hlook.
  destruct (subscript current (lit "wind_speed_10m")) as [wind_speed|] eqn:H3;
    [|discriminate]; cbn [mbind result_bind] in Hlook.
  destruct (subscript current (lit "weather_code")) as [weather_code|] eqn:H4;
    [|discriminate]; cbn [mbind result_bind] in Hlook.
  rewrite (weather_card_readings _ _ _ _ _ _ _ _ Ht H0 H1 H2 H3 H4 Hlook).
  cbv zeta. unfold card_head. rewrite get_weather_image_unfold.
  destruct (quote _);
    (destruct (get_alert_status temp wind_speed);
     [destruct (get_alert_message temp wind_speed)|]); reflexivity.
Qed.

(** A fetch asks once, for the forecast of its coordinates, with a timeout
    of 10. *)
Lemma fetch_weather_data_requests network (lat lon : json) :
  concat (List.map event_request (fetch_weather_data network lat lon).1)
  = [(weather_url lat lon, Some 10)].
Proof.
  rewrite fetch_weather_data_unfold. cbv zeta.
  destruct (_ ≫= _) as [data|e]; [reflexivity|].
  destruct (is_Timeout e), (is_RequestException e), (is_ValueError e); reflexivity.
Qed.

(** ** The sections of the page *)

Lemma show_selected_unfold network (location : suggestion) (s : session_state) :
  show_selected network location s =
  let fetched := fetch_weather_data network (lat location) (lon location) in
  let cleared := {| search_query := search_query s; selected_location := Some None |} in
  match fetched.2 with
  | Raise e => (Draw <$> fetched.1, s, Raise e)
  | Ok weather_data =>
      if truthy weather_data then
        let card := weather_card (name location) weather_data in
        let drawn :=
          (Draw <$> fetched.1)
          ++ [StSuccess [Txt (lit "Found weather data for "); Txt (name location)];
              StSubheader [Txt (lit "Weather in "); Txt (name location)]]
          ++ (Draw <$> card.1) in
        match card.2 with
        | Ok _ => (drawn, cleared, Ok Next)
        | Raise e => (drawn, s, Raise e)
        end
      else
        ((Draw <$> fetched.1)
         ++ [Draw (StError [Txt (lit "Unable to fetch weather data for this location")])],
         cleared, Ok Next)
  end.
Proof.
  unfold show_selected, run, draw, get_state, set_state, mbind, Page_bind, mret, Page_ret.
  destruct (fetch_weather_data network (lat location) (lon location)) as [tf [data|e]];
    [|reflexivity].
  cbn [fst snd]. destruct (truthy data).
  - destruct (weather_card (name location) data) as [tc [[]|e]];
      cbn [fst snd app]; rewrite ?app_nil_r, <- ?app_assoc; reflexivity.
  - cbn [fst snd app]. rewrite ?app_nil_r. reflexivity.
Qed.

Lemma search_by_name_raises network py_str (query : str) (s : session_state) (e : exn) :
  network (search_url query) None = Raise e ->
  search_by_name network py_str query s
  = ([Draw (RequestsGet (search_url query) None)], s, Raise e).
Proof.
  intros Hnet.
  unfold search_by_name, run, requests_get, mbind, Page_bind. cbn [fst snd].
  rewrite Hnet. reflexivity.
Qed.

Lemma search_by_name_not_ok network py_str (query : str) (s : session_state) r :
  network (search_url query) None = Ok r ->
  ok r = false ->
  search_by_name network py_str query s
  = ([Draw (RequestsGet (search_url query) None);
      Draw (StError [Txt (lit "Error accessing geocoding service: ");
                     Str (JInt (status_code r))])],
     s, Ok Return).
Proof.
  intros Hnet Hok.
  unfold search_by_name, run, requests_get, draw, mbind, Page_bind, mret, Page_ret.
  cbn [fst snd]. rewrite Hnet, Hok. reflexivity.
Qed.

Lemma search_by_name_no_results network py_str (query : str) (s : session_state) r
    (data found : json) :
  network (search_url query) None = Ok r ->
  ok r = true ->
  json_body r = Ok data ->
  py_get data (lit "results") = Ok found ->
  truthy found = false ->
  search_by_name network py_str query s
  = ([Draw (RequestsGet (search_url query) None);
      StWarning [Txt (lit "No results found for '" ++ query
                        ++ lit "'. Please try a different location.")]],
     s, Ok Return).
Proof.
  intros Hnet Hok Hbody Hget Hfalse.
  unfold search_by_name, run, requests_get, draw, fail, mbind, Page_bind, mret, Page_ret.
  cbn [fst snd]. rewrite Hnet, Hok. cbn [negb]. rewrite Hbody, Hget, Hfalse.
  reflexivity.
Qed.

(** The search by name leaves the session as it is. *)
Lemma search_by_name_keeps_state network py_str (query : str) (s : session_state) :
  (search_by_name network py_str query s).1.2 = s.
Proof.
  unfold search_by_name, run, requests_get, draw, fail, mbind, Page_bind, mret, Page_ret.
  cbn [fst snd].
  destruct (network (search_url query) None) as [r|e]; [|reflexivity].
  destruct (ok r); cbn [negb]; [|reflexivity].
  destruct (json_body r) as [data|e]; [|reflexivity].
  destruct (py_get data (lit "results")) as [found|e]; [|reflexivity].
  destruct (truthy found); cbn [negb]; [|reflexivity].
  destruct (result_bind _ _ first_item (subscript data (lit "results")))
    as [location|e]; [|reflexivity].
  destruct (subscript location (lit "latitude")) as [la|e]; [|reflexivity].
  destruct (subscript location (lit "longitude")) as [lo|e]; [|reflexivity].
  destruct (fetch_weather_data network la lo) as [tf [weather|e]]; [|reflexivity].
  cbn [fst snd]. destruct (truthy weather); [|reflexivity].
  destruct (subscript location (lit "name")) as [nm|e]; [|reflexivity].
  destruct (weather_card (shown_name py_str nm) weather) as [tc [[]|e]]; reflexivity.
Qed.

(** The requests of a search by name that finds something: the search,
    then the forecast at the coordinates of the first result. *)
Lemma search_by_name_requests network py_str (query : str) (s : session_state) r
    (data found location la lo : json) :
  network (search_url query) None = Ok r ->
  ok r = true ->
  json_body r = Ok data ->
  py_get data (lit "results") = Ok found ->
  truthy found = true ->
  subscript data (lit "results") ≫= first_item = Ok location ->
  subscript location (lit "latitude") = Ok la ->
  subscript location (lit "longitude") = Ok lo ->
  page_requests (search_by_name network py_str query s).1.1
  = [(search_url query, None); (weather_url la lo, Some 10)].
Proof.
  intros Hnet Hok Hbody Hget Htrue Hloc Hla Hlo.
  pose proof (fetch_weather_data_requests network la lo) as Hf.
  unfold search_by_name, run, requests_get, draw, fail, mbind, Page_bind, mret, Page_ret.
  cbn [fst snd]. rewrite Hnet, Hok. cbn [negb]. rewrite Hbody, Hget, Htrue. cbn [negb].
  unfold mbind in Hloc. rewrite Hloc, Hla, Hlo.
  destruct (fetch_weather_data network la lo) as [tf [weather|e]]; cbn [fst snd] in *.
  - destruct (truthy weather).
    + destruct (subscript location (lit "name")) as [nm|e].
      * pose proof (weather_card_no_requests (shown_name py_str nm) weather) as Hc.
        destruct (weather_card (shown_name py_str nm) weather) as [tc [[]|e]];
          cbn [fst snd] in *;
          rewrite ?app_nil_r, ?page_requests_app, !page_requests_draw, Hf, ?Hc;
          reflexivity.
      * cbn [fst snd]. rewrite ?app_nil_r, ?page_requests_app, !page_requests_draw, Hf.
        reflexivity.
    + cbn [fst snd]. rewrite ?app_nil_r, ?page_requests_app, !page_requests_draw, Hf.
      reflexivity.
  - rewrite ?app_nil_r, ?page_requests_app, !page_requests_draw, Hf. reflexivity.
Qed.

Lemma handle_search_unfold network py_str (query : str) (search_button : bool)
    (s : session_state) :
  handle_search network py_str query search_button s =
  if search_button || bool_decide (is_Some (selected_location s ≫= id)) then
    match (match selected_location s ≫= id with
           | Some location => show_selected network location s
           | None => search_by_name network py_str query s
           end) with
    | (t, s', Ok outcome) =>
        (Within (Spinner (lit "Fetching weather data...")) <$> t, s', Ok outcome)
    | (t, s', Raise e) =>
        ((Within (Spinner (lit "Fetching weather data...")) <$> t)
         ++ [Draw (StError [Txt (if is_RequestException e
                                 then lit "Network error: "
                                 else lit "An error occurred: ");
                            ExnStr e])],
         s', Ok Next)
    end
  else ([], s, Ok Next).
Proof.
  unfold handle_search, try_page, within, get_state, draw, mret, Page_ret.
  unfold mbind, Page_bind. cbn [fst snd].
  destruct (search_button || _); [|reflexivity].
  destruct (selected_location s) as [[location|]|]; cbn [option_bind id].
  - destruct (show_selected network location s) as [[t s'] [outcome|e]];
      cbn [app]; [reflexivity|]. destruct (is_RequestException e); reflexivity.
  - destruct (search_by_name network py_str query s) as [[t s'] [outcome|e]];
      cbn [app]; [reflexivity|]. destruct (is_RequestException e); reflexivity.
  - destruct (search_by_name network py_str query s) as [[t s'] [outcome|e]];
      cbn [app]; [reflexivity|]. destruct (is_RequestException e); reflexivity.
Qed.

Lemma get_location_suggestions_returns network (query : str) :
  exists trace suggestions,
    get_location_suggestions network query = (trace, Ok suggestions).
Proof.
  rewrite get_location_suggestions_unfold.
  destruct (length query <? 2)%nat; [eauto|]. cbv zeta. destruct (_ ≫= _); eauto.
Qed.

Lemma get_location_suggestions_requests network (query : str) :
  Forall (fun rq => rq.2 = None)
    (concat (List.map event_request (get_location_suggestions network query).1)).
Proof.
  rewrite get_location_suggestions_unfold.
  destruct (length query <? 2)%nat; [constructor|]. cbv zeta.
  destruct (_ ≫= _); repeat constructor.
Qed.

Lemma suggestion_buttons user (suggestions : list suggestion) (s : session_state) :
  for_each suggestions (fun suggestion =>
    clicked ← st_button user (name suggestion)
                (Some (lit "suggestion_" ++ name suggestion))
                (Some (lit "Click to view weather for " ++ name suggestion));
    if clicked : bool then
      s ← get_state;
      set_state {| search_query := search_query s;
                   selected_location := Some (Some suggestion) |};;
      s ← get_state;
      set_state {| search_query := Some (name suggestion);
                   selected_location := selected_location s |}
    else mret tt) s
  = (suggestion_button <$> suggestions, after_buttons user suggestions s, Ok tt).
Proof.
  revert s. induction suggestions as [|x rest IH]; intros s; [reflexivity|].
  cbn [for_each]. unfold mbind at 1. unfold Page_bind at 1.
  unfold st_button at 1, get_state, set_state, mret, Page_ret.
  unfold mbind at 1. unfold Page_bind at 1.
  unfold after_buttons. cbn [fold_left]. fold (after_buttons user rest).
  unfold picked at 2.
  destruct (pressed user (name x) (Some (lit "suggestion_" ++ name x)));
    unfold mbind, Page_bind in *; cbn [fst snd]; rewrite IH; reflexivity.
Qed.

Lemma show_suggestions_unfold network user (query : str) (s : session_state) :
  show_suggestions network user query s =
  if negb (Nat.eqb (length query) 0) && (2 <=? length query)%nat then
    let found := get_location_suggestions network query in
    match found.2 with
    | Ok [] => (Draw <$> found.1, s, Ok tt)
    | Ok suggestions =>
        ((Draw <$> found.1)
         ++ Draw (StMarkdown [Txt (lit "### Suggestions:")])
         :: (suggestion_button <$> suggestions),
         after_buttons user suggestions s, Ok tt)
    | Raise e => (Draw <$> found.1, s, Raise e)
    end
  else ([], s, Ok tt).
Proof.
  unfold show_suggestions.
  destruct (negb _ && _); [|reflexivity].
  unfold mbind at 1. unfold Page_bind at 1. unfold run at 1.
  destruct (get_location_suggestions network query) as [t [suggestions|e]];
    [|reflexivity].
  cbn [fst snd]. destruct suggestions as [|x rest].
  - cbn [length Nat.eqb negb]. unfold mret, Page_ret. rewrite app_nil_r. reflexivity.
  - cbn [length Nat.eqb negb]. unfold mbind at 1. unfold Page_bind at 1.
    unfold draw at 1. rewrite suggestion_buttons. reflexivity.
Qed.

(** The loop over the preset locations. *)
Lemma for_each_requests {A} (g : A -> list frag * option Z) (body : A -> Page unit) :
  (forall x s, (body x s).1.2 = s /\ page_requests (body x s).1.1 = [g x]) ->
  forall (items : list A) (s : session_state),
    (for_each items body s).1.2 = s /\
    exists n,
      (n <= length items)%nat /\
      page_requests (for_each items body s).1.1 = g <$> take n items /\
      ((for_each items body s).2 = Ok tt -> n = length items) /\
      (forall e, (for_each items body s).2 = Raise e -> (0 < n)%nat).
Proof.
  intros Hbody items. induction items as [|x rest IH]; intros s.
  - split; [reflexivity|]. exists 0%nat. cbn. repeat split; try lia; discriminate.
  - cbn [for_each]. unfold mbind, Page_bind.
    destruct (Hbody x s) as [Hs Hr].
    destruct (body x s) as [[t s'] [[]|e]]; cbn [fst snd] in *; subst s'.
    + destruct (IH s) as (Hs' & n & Hn & Hreq & Hok & Hraise).
      destruct (for_each rest body s) as [[t' s''] r]; cbn [fst snd] in *.
      split; [exact Hs'|]. exists (S n). cbn [length take fmap list_fmap].
      rewrite page_requests_app, Hr, Hreq. repeat split; try lia.
      * intros Hr'. f_equal. apply Hok. exact Hr'.
    + split; [reflexivity|]. exists 1%nat. cbn [length take fmap list_fmap].
      rewrite Hr. destruct rest; repeat split; try lia; try discriminate.
Qed.

Lemma preset_card_requests network (idx : nat) (location : suggestion)
    (s : session_state) :
  let card :=
    within (Col (if Nat.even idx then 1 else 2))
      (weather_data ← run (fetch_weather_data network (lat location) (lon location));
       if truthy weather_data then
         within (Expander (pushpin :: lit " " ++ name location) true)
           (run (weather_card (name location) weather_data))
       else mret tt) in
  (card s).1.2 = s /\ page_requests (card s).1.1 = [forecast_request location].
Proof.
  cbv zeta. unfold within, run, mbind, Page_bind, mret, Page_ret, forecast_request.
  pose proof (fetch_weather_data_requests network (lat location) (lon location)) as Hf.
  destruct (fetch_weather_data network (lat location) (lon location))
    as [tf [weather|e]]; cbn [fst snd] in *.
  - destruct (truthy weather).
    + pose proof (weather_card_no_requests (name location) weather) as Hc.
      destruct (weather_card (name location) weather) as [tc r]; cbn [fst snd] in *.
      split; [reflexivity|].
      rewrite page_requests_within, page_requests_app, page_requests_within,
        !page_requests_draw, Hf, Hc. reflexivity.
    + cbn [fst snd]. split; [reflexivity|].
      rewrite page_requests_within, app_nil_r, page_requests_draw, Hf. reflexivity.
  - split; [reflexivity|]. rewrite page_requests_within, page_requests_draw, Hf.
    reflexivity.
Qed.

Lemma strategic_locations_trace network (s : session_state) :
  exists rest r n,
    strategic_locations network s
    = (Draw (StMarkdown [Txt (lit "---")]) :: strategic_header
         :: StColumnCount 2 :: rest, s, r) /\
    (n <= 4)%nat /\
    page_requests rest = forecast_request <$> take n DEFAULT_LOCATIONS /\
    (r = Ok tt -> n = 4%nat) /\
    (forall e, r = Raise e -> (0 < n)%nat).
Proof.
  unfold strategic_locations, draw. unfold mbind at 1 2 3. unfold Page_bind at 1 2 3.
  set (body := fun '(idx, location) => within _ _).
  destruct (for_each_requests (fun x => forecast_request x.2) body) with
    (items := enumerate DEFAULT_LOCATIONS) (s := s)
    as (Hs & n & Hn & Hreq & Hok & Hraise).
  { intros [idx location] s0. apply preset_card_requests. }
  destruct (for_each (enumerate DEFAULT_LOCATIONS) body s) as [[t s'] r];
    cbn [fst snd] in *; subst s'.
  exists t, r, n. split; [reflexivity|]. split; [exact Hn|]. split.
  - rewrite Hreq. clear.
    do 5 (destruct n as [|n]; [reflexivity|]). reflexivity.
  - split; [exact Hok | exact Hraise].
Qed.

(** [main] as its sections in a row. *)
Lemma main_unfold network py_str user (s : session_state) :
  main network py_str user s =
  let s0 := initialised s in
  let top := page_top s0 in
  let search_button := pressed user (magnifier :: lit " Search") None in
  match show_suggestions network user (typed user) s0 with
  | (t1, s1, Raise e) => (top ++ t1, s1, Raise e)
  | (t1, s1, Ok _) =>
      match handle_search network py_str (typed user) search_button s1 with
      | (t2, s2, Raise e) => (top ++ t1 ++ t2, s2, Raise e)
      | (t2, s2, Ok Return) => (top ++ t1 ++ t2, s2, Ok tt)
      | (t2, s2, Ok Next) =>
          match strategic_locations network s2 with
          | (t3, s3, Raise e) => (top ++ t1 ++ t2 ++ t3, s3, Raise e)
          | (t3, s3, Ok _) =>
              (top ++ t1 ++ t2 ++ t3
               ++ StButton (arrows :: lit " Refresh Data") None None
               :: (if pressed user (arrows :: lit " Refresh Data") None
                   then [StExperimentalRerun] else []),
               s3, Ok tt)
          end
      end
  end.
Proof.
  unfold main, refresh_button, within, st_button, draw, get_state, set_state,
    mret, Page_ret, initialised, page_top.
  unfold mbind, Page_bind.
  destruct s as [[q|] [sel|]];
    cbn [fst snd app default from_option id fmap list_fmap search_query
         selected_location];
    (destruct (show_suggestions _ _ _ _) as [[t1 s1] [[]|e]]; [|reflexivity]);
    (destruct (handle_search _ _ _ _ s1) as [[t2 s2] [[|]|e]];
     [|rewrite ?app_nil_r; reflexivity|reflexivity]);
    (destruct (strategic_locations network s2) as [[t3 s3] [[]|e]];
     [|reflexivity]);
    destruct (pressed user (arrows :: lit " Refresh Data") None);
    reflexivity.
Qed.

Lemma show_suggestions_returns network user (query : str) (s : session_state) :
  exists t s', show_suggestions network user query s = (t, s', Ok tt).
Proof.
  rewrite show_suggestions_unfold. destruct (negb _ && _); [|eauto]. cbv zeta.
  destruct (get_location_suggestions_returns network query) as (t & l & ->).
  cbn [snd]. destruct l; eauto.
Qed.

Lemma handle_search_returns network py_str (query : str) (search_button : bool)
    (s : session_state) :
  exists t s' outcome,
    handle_search network py_str query search_button s = (t, s', Ok outcome).
Proof.
  rewrite handle_search_unfold. destruct (search_button || _); [|eauto].
  destruct (match selected_location s ≫= id with
            | Some location => show_selected network location s
            | None => search_by_name network py_str query s
            end) as [[t s'] [outcome|e]]; eauto.
Qed.

Lemma after_buttons_none user (suggestions : list suggestion) (s : session_state) :
  Forall (fun x => picked user x = false) suggestions ->
  after_buttons user suggestions s = s.
Proof.
  intros H. revert s. induction H as [|x rest Hx _ IH]; intros s; [reflexivity|].
  unfold after_buttons. cbn [fold_left]. rewrite Hx. apply IH.
Qed.

Lemma after_buttons_app user (a b : list suggestion) (s : session_state) :
  after_buttons user (a ++ b) s = after_buttons user b (after_buttons user a s).
Proof. unfold after_buttons. apply fold_left_app. Qed.

(** X18: an exception leaves [main] only from the section of the preset
    locations: whatever the visitor does and the network answers, the
    search box, the suggestions and the search never let one out.  When
    [main] raises, the "Strategic Locations" header is already drawn and
    the forecast of the first preset location has been asked for. *)
Theorem main_raises_only_from_presets network py_str user (s : session_state)
    (t : list page_event) (s' : session_state) (e : exn) :
  main network py_str user s = (t, s', Raise e) ->
  strategic_header ∈ t /\
  forecast_request
    {| name := lit "Ladakh";
       lat := JFloat (decimal 341526 10000); lon := JFloat (decimal 775771 10000) |}
    ∈ page_requests t.
Proof.
  rewrite main_unfold. cbv zeta.
  destruct (show_suggestions_returns network user (typed user) (initialised s))
    as (t1 & s1 & ->).
  destruct (handle_search_returns network py_str (typed user)
              (pressed user (magnifier :: lit " Search") None) s1)
    as (t2 & s2 & outcome & ->).
  destruct outcome; [|discriminate].
  destruct (strategic_locations_trace network s2)
    as (rest & r & n & -> & Hn & Hreq & _ & Hraise).
  destruct r as [[]|e']; [discriminate|].
  remember (page_top (initialised s)) as top eqn:Htop. clear Htop.
  intros [= <- <- <-].
  specialize (Hraise e' eq_refl). split.
  - rewrite !elem_of_app. right. right. right.
    apply elem_of_cons. right. apply elem_of_cons. left. reflexivity.
  - rewrite !page_requests_app. rewrite !elem_of_app. right. right. right.
    change (page_requests (Draw (StMarkdown [Txt (lit "---")]) :: strategic_header
                             :: StColumnCount 2 :: rest))
      with (page_requests rest).
    rewrite Hreq. destruct n as [|n]; [lia|].
    cbn [DEFAULT_LOCATIONS take fmap list_fmap]. apply elem_of_cons. left. reflexivity.
Qed.

Lemma main_raises_only_from_presets_witness :
  strategic_header
    ∈ (main (answering (obj [(lit "reason", JStr (lit "down"))]))
         (fun _ => []) idle fresh).1.1.
Proof.
  eapply (main_raises_only_from_presets
            (answering (obj [(lit "reason", JStr (lit "down"))]))
            (fun _ => []) idle fresh _ _ (Exn KeyError (lit "current"))).
  vm_compute. reflexivity.
Defined.

(** X19: a run in which the visitor has typed fewer than two characters,
    has not pressed Search and has no location selected asks for the
    forecasts of the preset locations only, one after the other in the
    order of the list and each with a timeout of 10; all four when [main]
    returns. *)
Theorem quiet_run_fetches_presets_in_order network py_str user (s : session_state) :
  (length (typed user) < 2)%nat ->
  pressed user (magnifier :: lit " Search") None = false ->
  selected_location s ≫= id = None ->
  exists n,
    (n <= 4)%nat /\
    page_requests (main network py_str user s).1.1
    = forecast_request <$> take n DEFAULT_LOCATIONS /\
    ((main network py_str user s).2 = Ok tt -> n = 4%nat).
Proof.
  intros Hlen Hbutton Hsel.
  rewrite main_unfold. cbv zeta.
  rewrite show_suggestions_unfold.
  assert (Hshort : (2 <=? length (typed user))%nat = false)
    by (apply Nat.leb_gt; exact Hlen).
  rewrite Hshort, andb_false_r.
  rewrite handle_search_unfold, Hbutton.
  assert (Hsel0 : selected_location (initialised s) ≫= id = None).
  { destruct s as [q [sel|]]; [exact Hsel | reflexivity]. }
  rewrite Hsel0.
  change (false || bool_decide (is_Some (@None suggestion))) with false. cbv iota.
  destruct (strategic_locations_trace network (initialised s))
    as (rest & r & n & -> & Hn & Hreq & Hok & _).
  exists n. split; [exact Hn|].
  destruct r as [[]|e]; cbn [fst snd];
    rewrite !page_requests_app;
    change (page_requests (page_top (initialised s))) with (@nil (list frag * option Z));
    change (page_requests (Draw (StMarkdown [Txt (lit "---")]) :: strategic_header
                             :: StColumnCount 2 :: rest))
      with (page_requests rest);
    cbn [app]; rewrite Hreq.
  - split; [|intros _; apply Hok; reflexivity].
    destruct (pressed user (arrows :: lit " Refresh Data") None);
      cbn; rewrite app_nil_r; reflexivity.
  - split; [reflexivity | discriminate].
Qed.

Lemma quiet_run_fetches_presets_in_order_witness :
  page_requests (main refusing (fun _ => []) idle fresh).1.1
  = forecast_request <$> DEFAULT_LOCATIONS.
Proof.
  destruct (quiet_run_fetches_presets_in_order refusing (fun _ => []) idle fresh)
    as (n & _ & Hreq & Hn); [cbn; lia | reflexivity | reflexivity |].
  rewrite Hreq, Hn; [reflexivity|]. vm_compute. reflexivity.
Defined.

Lemma show_suggestions_quiet network user (query : str) (s : session_state) :
  (forall x, picked user x = false) ->
  exists t1,
    show_suggestions network user query s = (t1, s, Ok tt) /\
    (strategic_header ∉ t1) /\
    Forall (fun rq => rq.2 = None) (page_requests t1).
Proof.
  intros Hnone. rewrite show_suggestions_unfold.
  destruct (negb _ && _).
  2:{ exists []. split; [reflexivity|]. split; [apply not_elem_of_nil | constructor]. }
  cbv zeta.
  pose proof (get_location_suggestions_requests network query) as Hreq.
  destruct (get_location_suggestions_returns network query) as (t & l & Hrun).
  rewrite Hrun in *. cbn [fst snd] in *.
  assert (Hdraw : strategic_header ∉ (Draw <$> t)).
  { intros Hin. apply list_elem_of_fmap in Hin as (e & He & _). discriminate. }
  destruct l as [|x rest].
  - eexists. split; [reflexivity|]. split; [exact Hdraw|].
    rewrite page_requests_draw. exact Hreq.
  - eexists. split.
    + rewrite after_buttons_none; [reflexivity|].
      apply Forall_forall. intros y _. apply Hnone.
    + split.
      * rewrite elem_of_app, elem_of_cons. intros [Hin | [Hin | Hin]].
        -- exact (Hdraw Hin).
        -- discriminate.
        -- apply list_elem_of_fmap in Hin as (e & He & _). discriminate.
      * rewrite page_requests_app, page_requests_draw.
        apply Forall_app. split; [exact Hreq|].
        change (page_requests (Draw (StMarkdown [Txt (lit "### Suggestions:")])
                                 :: (suggestion_button <$> x :: rest)))
          with (page_requests (suggestion_button <$> x :: rest)).
        clear. induction (x :: rest) as [|y l IH]; [constructor | exact IH].
Qed.

(** X20: a search that finds nothing ends the page.  When Search is
    pressed and the geocoding service answers with an error status or
    with no results, [main] shows the notice and returns: the preset
    locations are not drawn and no forecast is asked for. *)
Theorem failed_search_hides_presets network py_str user (s : session_state) r :
  pressed user (magnifier :: lit " Search") None = true ->
  (forall x, picked user x = false) ->
  selected_location s ≫= id = None ->
  network (search_url (typed user)) None = Ok r ->
  (ok r = false \/
   exists data found,
     ok r = true /\ json_body r = Ok data /\
     py_get data (lit "results") = Ok found /\ truthy found = false) ->
  exists front notice,
    main network py_str user s
    = (front ++ [Within (Spinner (lit "Fetching weather data...")) notice],
       initialised s, Ok tt) /\
    (notice = Draw (StError [Txt (lit "Error accessing geocoding service: ");
                             Str (JInt (status_code r))])
     \/ notice = StWarning [Txt (lit "No results found for '" ++ typed user
                                   ++ lit "'. Please try a different location.")]) /\
    (strategic_header
       ∉ front ++ [Within (Spinner (lit "Fetching weather data...")) notice]) /\
    Forall (fun rq => rq.2 = None)
      (page_requests
         (front ++ [Within (Spinner (lit "Fetching weather data...")) notice])).
Proof.
  intros Hbutton Hnone Hsel Hnet Hfail.
  rewrite main_unfold. cbv zeta.
  destruct (show_suggestions_quiet network user (typed user) (initialised s) Hnone)
    as (t1 & -> & Hhead & Hreq).
  rewrite handle_search_unfold, Hbutton. cbn [orb].
  assert (Hsel0 : selected_location (initialised s) ≫= id = None).
  { destruct s as [q [sel|]]; [exact Hsel | reflexivity]. }
  rewrite Hsel0.
  assert (Hsearch : exists notice,
             search_by_name network py_str (typed user) (initialised s)
             = ([Draw (RequestsGet (search_url (typed user)) None); notice],
                initialised s, Ok Return) /\
             (notice = Draw (StError [Txt (lit "Error accessing geocoding service: ");
                                      Str (JInt (status_code r))])
              \/ notice = StWarning [Txt (lit "No results found for '" ++ typed user
                                            ++ lit "'. Please try a different location.")])).
  { destruct Hfail as [Hok | (data & found & Hok & Hbody & Hget & Hfalse)].
    - eexists. split; [apply (search_by_name_not_ok _ _ _ _ r Hnet Hok)|]. left. reflexivity.
    - eexists. split;
        [apply (search_by_name_no_results _ _ _ _ r data found Hnet Hok Hbody Hget Hfalse)|].
      right. reflexivity. }
  destruct Hsearch as (notice & -> & Hnotice).
  cbn [fmap list_fmap].
  exists (page_top (initialised s) ++ t1
          ++ [Within (Spinner (lit "Fetching weather data..."))
                (Draw (RequestsGet (search_url (typed user)) None))]), notice.
  split; [rewrite <- !app_assoc; reflexivity|]. split; [exact Hnotice|]. split.
  - rewrite <- !app_assoc, !elem_of_app. intros [Hin | [Hin | [Hin | Hin]]].
    + unfold page_top in Hin.
      repeat (apply elem_of_cons in Hin as [Hin | Hin]; [discriminate|]).
      apply elem_of_nil in Hin. exact Hin.
    + exact (Hhead Hin).
    + apply list_elem_of_singleton in Hin. discriminate.
    + apply list_elem_of_singleton in Hin. discriminate.
  - rewrite <- !app_assoc, !page_requests_app.
    apply Forall_app. split; [constructor|].
    apply Forall_app. split; [exact Hreq|].
    destruct Hnotice as [-> | ->]; repeat constructor.
Qed.

Lemma failed_search_hides_presets_witness :
  exists front notice,
    main (answering (obj [(lit "generationtime_ms", JInt 1)])) (fun _ => [])
      (searching (lit "Zz")) fresh
    = (front ++ [Within (Spinner (lit "Fetching weather data...")) notice],
       Session (Some []) (Some None), Ok tt).
Proof.
  destruct (failed_search_hides_presets
              (answering (obj [(lit "generationtime_ms", JInt 1)])) (fun _ => [])
              (searching (lit "Zz")) fresh
              (Response 200 (Ok (obj [(lit "generationtime_ms", JInt 1)]))))
    as (front & notice & Hrun & _);
    try (vm_compute; reflexivity).
  - right. exists (obj [(lit "generationtime_ms", JInt 1)]), JNull.
    repeat split; vm_compute; reflexivity.
  - exists front, notice. exact Hrun.
Defined.

Lemma handle_search_requests network py_str (query : str) (search_button : bool)
    (s : session_state) :
  page_requests (handle_search network py_str query search_button s).1.1
  = if search_button || bool_decide (is_Some (selected_location s ≫= id)) then
      page_requests
        (match selected_location s ≫= id with
         | Some location => show_selected network location s
         | None => search_by_name network py_str query s
         end).1.1
    else [].
Proof.
  rewrite handle_search_unfold. destruct (search_button || _); [|reflexivity].
  destruct (match selected_location s ≫= id with
            | Some location => show_selected network location s
            | None => search_by_name network py_str query s
            end) as [[t s'] [outcome|e]]; cbn [fst snd].
  - apply page_requests_within.
  - rewrite page_requests_app, page_requests_within. apply app_nil_r.
Qed.

(** X21: a location picked from the suggestions is fetched by its own
    coordinates.  With a location selected, the search section asks for
    its forecast and nothing else (no geocoding, whether Search is
    pressed or not) and goes on to the preset locations; the selection is
    cleared when the fetch returned and the card, if any, was drawn. *)
Theorem selected_location_is_fetched_directly network py_str (query : str)
    (search_button : bool) (s : session_state) (location : suggestion) :
  selected_location s = Some (Some location) ->
  exists t s',
    handle_search network py_str query search_button s = (t, s', Ok Next) /\
    page_requests t = [forecast_request location] /\
    (forall weather_data,
       (fetch_weather_data network (lat location) (lon location)).2 = Ok weather_data ->
       truthy weather_data = false \/
       (weather_card (name location) weather_data).2 = Ok tt ->
       s' = {| search_query := search_query s; selected_location := Some None |}).
Proof.
  intros Hsel.
  pose proof (handle_search_requests network py_str query search_button s) as Hreq.
  rewrite handle_search_unfold in *. rewrite Hsel in *. cbn [mbind option_bind id] in *.
  rewrite orb_true_r in *. rewrite show_selected_unfold in *. cbv zeta in *.
  pose proof (fetch_weather_data_requests network (lat location) (lon location)) as Hf.
  destruct (fetch_weather_data network (lat location) (lon location))
    as [tf [weather|e]]; cbn [fst snd] in *.
  - destruct (truthy weather) eqn:Ht.
    + pose proof (weather_card_no_requests (name location) weather) as Hc.
      destruct (weather_card (name location) weather) as [tc [[]|e]] eqn:Hcard;
        cbn [fst snd] in *.
      * eexists; eexists. split; [reflexivity|]. split.
        -- rewrite page_requests_within, !page_requests_app, !page_requests_draw, Hf, Hc.
           reflexivity.
        -- intros data [= <-] _. reflexivity.
      * eexists; eexists. split; [reflexivity|]. split.
        -- rewrite page_requests_app, page_requests_within, !page_requests_app,
             !page_requests_draw, Hf, Hc. reflexivity.
        -- intros data [= <-] [H | H]; [congruence|].
           rewrite Hcard in H. discriminate H.
    + eexists; eexists. split; [reflexivity|]. split.
      * rewrite page_requests_within, page_requests_app, page_requests_draw, Hf.
        reflexivity.
      * intros data [= <-] _. reflexivity.
  - eexists; eexists. split; [reflexivity|]. split.
    + rewrite page_requests_app, page_requests_within, page_requests_draw, Hf.
      reflexivity.
    + intros data H. discriminate H.
Qed.

Lemma selected_location_is_fetched_directly_witness :
  exists t s',
    handle_search refusing (fun _ => []) (lit "Le") false
      (Session (Some (lit "Leh")) (Some (Some (Suggestion (lit "Leh") (JInt 34) (JInt 77)))))
    = (t, s', Ok Next) /\
    page_requests t = [(weather_url (JInt 34) (JInt 77), Some 10)].
Proof.
  destruct (selected_location_is_fetched_directly refusing (fun _ => []) (lit "Le") false
              (Session (Some (lit "Leh"))
                 (Some (Some (Suggestion (lit "Leh") (JInt 34) (JInt 77)))))
              (Suggestion (lit "Leh") (JInt 34) (JInt 77)) eq_refl)
    as (t & s' & Hrun & Hreq & _).
  exists t, s'. split; [exact Hrun | exact Hreq].
Defined.

(** X22: a selection whose card fails stays selected.  When the data of
    the selected location comes back but its card raises, the error is
    shown under "An error occurred" (or "Network error"), the page goes
    on, and the selection is not cleared, so the next run meets it again. *)
Theorem failed_card_keeps_selection network py_str (query : str)
    (search_button : bool) (s : session_state) (location : suggestion)
    (weather_data : json) (e : exn) :
  selected_location s = Some (Some location) ->
  (fetch_weather_data network (lat location) (lon location)).2 = Ok weather_data ->
  truthy weather_data = true ->
  (weather_card (name location) weather_data).2 = Raise e ->
  exists t,
    handle_search network py_str query search_button s
    = (t ++ [Draw (StError [Txt (if is_RequestException e
                                 then lit "Network error: "
                                 else lit "An error occurred: ");
                            ExnStr e])],
       s, Ok Next).
Proof.
  intros Hsel Hfetch Htruthy Hcard.
  rewrite handle_search_unfold, Hsel. cbn [mbind option_bind id].
  rewrite orb_true_r, show_selected_unfold. cbv zeta.
  rewrite Hfetch, Htruthy, Hcard. eexists. reflexivity.
Qed.

Lemma failed_card_keeps_selection_witness :
  exists t,
    handle_search (answering (obj [(lit "reason", JStr (lit "down"))])) (fun _ => [])
      [] false
      (Session (Some (lit "Leh")) (Some (Some (Suggestion (lit "Leh") (JInt 34) (JInt 77)))))
    = (t ++ [Draw (StError [Txt (lit "An error occurred: ");
                            ExnStr (Exn KeyError (lit "current"))])],
       Session (Some (lit "Leh")) (Some (Some (Suggestion (lit "Leh") (JInt 34) (JInt 77)))),
       Ok Next).
Proof.
  apply (failed_card_keeps_selection
           (answering (obj [(lit "reason", JStr (lit "down"))])) (fun _ => []) [] false
           (Session (Some (lit "Leh"))
              (Some (Some (Suggestion (lit "Leh") (JInt 34) (JInt 77)))))
           (Suggestion (lit "Leh") (JInt 34) (JInt 77))
           (obj [(lit "reason", JStr (lit "down"))]) (Exn KeyError (lit "current")));
    vm_compute; reflexivity.
Defined.

(** X23: the search by name uses the first result only.  When Search is
    pressed, nothing is selected and the geocoding answer holds results,
    the requests are the search (one result asked, no timeout) and then
    the forecast at the latitude and longitude of the first result,
    whatever the other results are. *)
Theorem search_fetches_first_result network py_str (query : str) (s : session_state)
    r fields (first : json) (others : list json) (la lo : json) :
  selected_location s ≫= id = None ->
  network (search_url query) None = Ok r ->
  ok r = true ->
  json_body r = Ok (JObj fields) ->
  fields !! lit "results" = Some (JArr (first :: others)) ->
  subscript first (lit "latitude") = Ok la ->
  subscript first (lit "longitude") = Ok lo ->
  page_requests (handle_search network py_str query true s).1.1
  = [(search_url query, None); (weather_url la lo, Some 10)].
Proof.
  intros Hsel Hnet Hok Hbody Hres Hla Hlo.
  rewrite handle_search_requests, Hsel. cbn [orb].
  apply (search_by_name_requests network py_str query s r (JObj fields)
           (JArr (first :: others)) first la lo Hnet Hok Hbody).
  - cbn [py_get]. rewrite Hres. reflexivity.
  - reflexivity.
  - cbn [subscript]. rewrite Hres. reflexivity.
  - exact Hla.
  - exact Hlo.
Qed.

Lemma search_fetches_first_result_witness :
  page_requests
    (handle_search (answering (obj [(lit "results", JArr [leh; monaco])])) (fun _ => [])
       (lit "Le") true fresh).1.1
  = [(search_url (lit "Le"), None);
     (weather_url (JFloat (binary64 34)) (JFloat (binary64 77)), Some 10)].
Proof.
  apply (search_fetches_first_result
           (answering (obj [(lit "results", JArr [leh; monaco])])) (fun _ => [])
           (lit "Le") fresh
           (Response 200 (Ok (obj [(lit "results", JArr [leh; monaco])])))
           (list_to_map [(lit "results", JArr [leh; monaco])]) leh [monaco]);
    vm_compute; reflexivity.
Defined.

(** X24: a search that cannot reach the geocoding service does not end the
    page.  When the request of the search raises, the error is shown
    ("Network error" for a request exception, "An error occurred"
    otherwise) and the preset locations are drawn all the same. *)
Theorem unreachable_search_keeps_presets network py_str user (s : session_state)
    (e : exn) :
  pressed user (magnifier :: lit " Search") None = true ->
  (forall x, picked user x = false) ->
  selected_location s ≫= id = None ->
  network (search_url (typed user)) None = Raise e ->
  Draw (StError [Txt (if is_RequestException e
                      then lit "Network error: " else lit "An error occurred: ");
                 ExnStr e])
    ∈ (main network py_str user s).1.1 /\
  strategic_header ∈ (main network py_str user s).1.1.
Proof.
  intros Hbutton Hnone Hsel Hnet.
  rewrite main_unfold. cbv zeta.
  destruct (show_suggestions_quiet network user (typed user) (initialised s) Hnone)
    as (t1 & -> & _ & _).
  rewrite handle_search_unfold, Hbutton. cbn [orb].
  assert (Hsel0 : selected_location (initialised s) ≫= id = None).
  { destruct s as [q [sel|]]; [exact Hsel | reflexivity]. }
  rewrite Hsel0, (search_by_name_raises _ _ _ _ e Hnet).
  destruct (strategic_locations_trace network (initialised s))
    as (rest & r & n & -> & _).
  remember (page_top (initialised s)) as top eqn:Htop. clear Htop.
  destruct r as [[]|e']; cbn [fst snd]; rewrite !elem_of_app; split.
  - right. right. left. right. apply list_elem_of_singleton. reflexivity.
  - right. right. right. left. apply elem_of_cons. right. apply elem_of_cons. left.
    reflexivity.
  - right. right. left. right. apply list_elem_of_singleton. reflexivity.
  - right. right. right. apply elem_of_cons. right. apply elem_of_cons. left.
    reflexivity.
Qed.

Lemma unreachable_search_keeps_presets_witness :
  Draw (StError [Txt (lit "Network error: ");
                 ExnStr (Exn ConnectionError (lit "Connection refused"))])
    ∈ (main refusing (fun _ => []) (searching (lit "Leh")) fresh).1.1 /\
  strategic_header ∈ (main refusing (fun _ => []) (searching (lit "Leh")) fresh).1.1.
Proof.
  apply (unreachable_search_keeps_presets refusing (fun _ => [])
           (searching (lit "Leh")) fresh
           (Exn ConnectionError (lit "Connection refused")));
    reflexivity.
Defined.

(** X25: pressing the button of a suggestion selects it.  After the
    suggestions are shown the session holds the suggestion whose button
    was pressed (the last one in the list if several were) and the search
    text is its name. *)
Theorem pressed_suggestion_is_selected network user (query : str) (s : session_state)
    (before : list suggestion) (chosen : suggestion) (after : list suggestion) :
  (2 <= length query)%nat ->
  (get_location_suggestions network query).2 = Ok (before ++ chosen :: after) ->
  picked user chosen = true ->
  Forall (fun x => picked user x = false) after ->
  (show_suggestions network user query s).1.2
  = {| search_query := Some (name chosen); selected_location := Some (Some chosen) |}.
Proof.
  intros Hlen Hfound Hchosen Hafter.
  rewrite show_suggestions_unfold.
  assert (Hcond : negb (Nat.eqb (length query) 0) && (2 <=? length query)%nat = true).
  { apply andb_true_intro. split.
    - destruct (length query); [lia | reflexivity].
    - apply Nat.leb_le. exact Hlen. }
  rewrite Hcond. cbv zeta. rewrite Hfound.
  assert (Hstate : after_buttons user (before ++ chosen :: after) s
                   = {| search_query := Some (name chosen);
                        selected_location := Some (Some chosen) |}).
  { rewrite after_buttons_app.
    change (chosen :: after) with ([chosen] ++ after).
    rewrite after_buttons_app, (after_buttons_none user after _ Hafter).
    unfold after_buttons. cbn [fold_left]. rewrite Hchosen. reflexivity. }
  destruct (before ++ chosen :: after) as [|x l] eqn:Hl.
  - destruct before; discriminate.
  - cbn [fst snd]. exact Hstate.
Qed.

Lemma pressed_suggestion_is_selected_witness :
  (show_suggestions (answering (obj [(lit "results", JArr [leh; monaco])]))
     (picking (lit "on") (lit "Monaco, Monaco")) (lit "on") fresh).1.2
  = {| search_query := Some (lit "Monaco, Monaco");
       selected_location := Some (Some (suggestion_of monaco)) |}.
Proof.
  apply (pressed_suggestion_is_selected
           (answering (obj [(lit "results", JArr [leh; monaco])]))
           (picking (lit "on") (lit "Monaco, Monaco")) (lit "on") fresh
           [suggestion_of leh] (suggestion_of monaco) []).
  - cbn. lia.
  - vm_compute. reflexivity.
  - vm_compute. reflexivity.
  - constructor.
Defined.
